(** * Triple RPC client: option defaulting, invocation dispatch and the
    user stream adapters.

  A shallow embedding of three Go sources:
  - [pkg/config/config.go]      (package [config]: [Option], [Validate]),
  - the Triple client           (package [triple]: [TripleClient]),
  - the user stream adapters    (package [stream]: [baseUserStream],
                                  [clientUserStream]).

  Go values that escape the type system ([interface{}], [reflect.Value],
  [context.Context], [error]) are modelled by small inductive types; calls
  that mutate state reachable from the receiver, write to the log or reach
  the network are functions in a state monad whose outcomes also cover a
  Go panic and a goroutine parked on a channel. *)

From Stdlib Require Import String Ascii List ZArith Bool Arith Lia.
Import ListNotations.

Local Open Scope string_scope.
Local Open Scope list_scope.

(* ===================================================================== *)
(** ** Go runtime values and control outcomes                             *)
(* ===================================================================== *)

Module go.

(** [[]byte]. *)
Definition bytes := list Byte.byte.

(** A non-nil [error]: what [errors.Errorf] builds, carrying the rendered
    message. *)
Inductive error_value : Type :=
| ErrorString (msg : string).

(** The interface type [error]; [None] is [nil]. *)
Definition error := option error_value.

(** A dynamically typed value ([interface{}]).  A [context.Context] is the
    chain of key/value pairs built by [context.WithValue], newest first. *)
#[warnings="-register-all"]
Inductive Any : Type :=
| AnyNil
| AnyString (s : string)
| AnyBytes (b : bytes)
| AnyError (e : error_value)
| AnyContext (kv : list (string * Any))
| AnyStruct (type_name : string) (fields : list Any).

Definition Context := list (string * Any).

(** [context.Background()] and [context.WithValue]. *)
Definition Background : Context := [].
Definition WithValue (parent : Context) (key : string) (val : Any) : Context :=
  (key, val) :: parent.

(** [ctx.Value(key)]: the value of the innermost binding of [key], or
    [nil]. *)
Fixpoint Value (ctx : Context) (key : string) : Any :=
  match ctx with
  | [] => AnyNil
  | (k, v) :: parent => if String.eqb k key then v else Value parent key
  end.

(** Outcome of running a piece of Go code from a state [S]. *)
Inductive Outcome (S A : Type) : Type :=
| Done (a : A) (s : S)
| Panic (msg : string) (s : S)
| Blocked (s : S).
Arguments Done {S A} a s.
Arguments Panic {S A} msg s.
Arguments Blocked {S A} s.

Definition M (S A : Type) : Type := S -> Outcome S A.

Definition ret {S A} (a : A) : M S A := fun s => Done a s.

Definition bind {S A B} (c : M S A) (k : A -> M S B) : M S B :=
  fun s =>
    match c s with
    | Done a s' => k a s'
    | Panic msg s' => Panic msg s'
    | Blocked s' => Blocked s'
    end.

Definition get {S} : M S S := fun s => Done s s.
Definition modify {S} (f : S -> S) : M S unit := fun s => Done tt (f s).
Definition panic {S A} (msg : string) : M S A := fun s => Panic msg s.

(** [xs[i]] on a slice. *)
Definition index {S A} (xs : list A) (i : nat) : M S A :=
  match nth_error xs i with
  | Some x => ret x
  | None => panic "runtime error: index out of range"
  end.

(** [fmt.Sprintf] restricted to the verb [%s] with string operands, which
    is all the sources use. *)
Fixpoint Sprintf (format : string) (args : list string) : string :=
  match format with
  | EmptyString => EmptyString
  | String "%"%char (String "s"%char rest) =>
      match args with
      | a :: args' => a ++ Sprintf rest args'
      | [] => "%!s(MISSING)" ++ Sprintf rest []
      end
  | String c rest => String c (Sprintf rest args)
  end.

(** [errors.Errorf(format, args...)]. *)
Definition Errorf (format : string) (args : list string) : error_value :=
  ErrorString (Sprintf format args).

(** A channel: the queued values and whether [close] was called. *)
Record Chan (A : Type) : Type := mkChan { queue : list A; closed : bool }.
Arguments mkChan {A} queue closed.
Arguments queue {A} c.
Arguments closed {A} c.

(** [<-ch]: the oldest queued value; the zero value once the channel is
    closed and drained; otherwise the receiver parks ([None]). *)
Definition recv {A} (zero : A) (ch : Chan A) : option (A * Chan A) :=
  match queue ch with
  | x :: rest => Some (x, mkChan rest (closed ch))
  | [] => if closed ch then Some (zero, ch) else None
  end.

End go.

Declare Scope go_scope.
Delimit Scope go_scope with go.
Notation "x <- c ;; k" := (go.bind c (fun x => k))
(at level 61, c at next level, right associativity) : go_scope.
Notation "c ;;; k" := (go.bind c (fun _ => k))
(at level 61, right associativity) : go_scope.

(** [reflect.Value]. *)
Module reflect.

Inductive Value : Type :=
| Zero                       (* reflect.Value{} *)
| Of (x : go.Any).           (* a Value holding a non-nil interface *)

(** [reflect.ValueOf(x)]; [ValueOf(nil)] is the zero Value. *)
Definition ValueOf (x : go.Any) : Value :=
  match x with
  | go.AnyNil => Zero
  | _ => Of x
  end.

(** [v.Interface()]. *)
Definition Interface {S} (v : Value) : go.M S go.Any :=
  match v with
  | Zero => go.panic "reflect: call of reflect.Value.Interface on zero Value"
  | Of x => go.ret x
  end.

End reflect.

(** [sync.Once]. *)
Module sync.

Record Once : Type := mkOnce { done : bool }.

Definition zero : Once := mkOnce false.

End sync.

(* ===================================================================== *)
(** ** Package [constant], [logger], [default_logger]                     *)
(* ===================================================================== *)

Module constant.

(** [type TripleSerializerName string]. *)
Definition TripleSerializerName := string.

(** The declarations of [pkg/common/constant] the sources refer to; their
    values are not part of the sources at hand and are kept abstract. *)
Class Decls : Type := {
  DefaultTimeout : Z;
  DefaultHttp2ControllerReadBufferSize : Z;
  DefaultListeningAddress : string;
  PBSerializerName : TripleSerializerName;
  TripleHessianWrapperSerializerName : TripleSerializerName;
  InterfaceKey : string
}.

(** Modelled from the spec: [constant.TRIPLE] is declared in
    [pkg/common/constant], which is not among the sources; the
    specification gives the default protocol identifier as "tri" (and so
    does the comment of [WithProtocol]). *)
Definition TRIPLE : string := "tri".

End constant.

Module logger.

(** A logger implementation. *)
Inductive Impl : Type :=
| BuiltIn
| Custom (id : nat).

(** The interface type [logger.Logger]; [None] is [nil]. *)
Definition Logger := option Impl.

(** One call of a method of the interface, as written at the call site. *)
Inductive Call : Type :=
| Debug (args : list go.Any)
| Debugf (format : string) (args : list go.Any)
| Error (args : list go.Any)
| Errorf (format : string) (args : list go.Any).

(** A log line: which logger received which call. *)
Definition Line : Type := Impl * Call.

(** Calling a method of [l] against the log [rd]/[wr] of a state: a nil
    interface has no method table. *)
Definition call {S} (rd : S -> list Line) (wr : list Line -> S -> S)
    (l : Logger) (c : Call) : go.M S unit :=
  match l with
  | None => go.panic "runtime error: invalid memory address or nil pointer dereference"
  | Some impl => go.modify (fun s => wr (rd s ++ [(impl, c)]) s)
  end.

End logger.

Module default_logger.

(** Modelled from the spec: [GetDefaultLogger] is declared in
    [pkg/common/logger/default_logger], which is not among the sources;
    the specification says the logger defaults to "a built-in logger" and
    that the defaulted option holds a non-null logger. *)
Definition GetDefaultLogger : logger.Logger := Some logger.BuiltIn.

End default_logger.

(* ===================================================================== *)
(** ** Package [config]                                                   *)
(* ===================================================================== *)

Module config.
Import constant.

(** Conversion [uint32(c)]. *)
Definition uint32 (z : Z) : Z := Z.modulo z (2 ^ 32).

Record Option : Type := mkOption {
  (* network opts *)
  Timeout : Z;                        (* uint32 *)
  BufferSize : Z;                     (* uint32 *)
  (* service opts *)
  Location : string;
  Protocol : string;
  SerializerType : TripleSerializerName;
  (* triple header opts *)
  HeaderGroup : string;
  HeaderAppVersion : string;
  (* logger *)
  Logger : logger.Logger
}.

(** [Option{}]. *)
Definition zero : Option := mkOption 0 0 "" "" "" "" "" None.

Definition set_Timeout (v : Z) (o : Option) : Option :=
  mkOption v (BufferSize o) (Location o) (Protocol o) (SerializerType o)
           (HeaderGroup o) (HeaderAppVersion o) (Logger o).
Definition set_BufferSize (v : Z) (o : Option) : Option :=
  mkOption (Timeout o) v (Location o) (Protocol o) (SerializerType o)
           (HeaderGroup o) (HeaderAppVersion o) (Logger o).
Definition set_Location (v : string) (o : Option) : Option :=
  mkOption (Timeout o) (BufferSize o) v (Protocol o) (SerializerType o)
           (HeaderGroup o) (HeaderAppVersion o) (Logger o).
Definition set_Protocol (v : string) (o : Option) : Option :=
  mkOption (Timeout o) (BufferSize o) (Location o) v (SerializerType o)
           (HeaderGroup o) (HeaderAppVersion o) (Logger o).
Definition set_SerializerType (v : TripleSerializerName) (o : Option) : Option :=
  mkOption (Timeout o) (BufferSize o) (Location o) (Protocol o) v
           (HeaderGroup o) (HeaderAppVersion o) (Logger o).
Definition set_HeaderGroup (v : string) (o : Option) : Option :=
  mkOption (Timeout o) (BufferSize o) (Location o) (Protocol o) (SerializerType o)
           v (HeaderAppVersion o) (Logger o).
Definition set_HeaderAppVersion (v : string) (o : Option) : Option :=
  mkOption (Timeout o) (BufferSize o) (Location o) (Protocol o) (SerializerType o)
           (HeaderGroup o) v (Logger o).
Definition set_Logger (v : logger.Logger) (o : Option) : Option :=
  mkOption (Timeout o) (BufferSize o) (Location o) (Protocol o) (SerializerType o)
           (HeaderGroup o) (HeaderAppVersion o) v.

Definition is_nil (l : logger.Logger) : bool :=
  match l with None => true | Some _ => false end.

(** [func (o *Option) Validate()]: the six guarded assignments, in the
    order of the source. *)
Definition Validate `{Decls} (o : Option) : Option :=
  let o := if Z.eqb (Timeout o) (uint32 0)
           then set_Timeout (uint32 DefaultTimeout) o else o in
  let o := if Z.eqb (BufferSize o) (uint32 0)
           then set_BufferSize (uint32 DefaultHttp2ControllerReadBufferSize) o else o in
  let o := if String.eqb (Location o) ""
           then set_Location DefaultListeningAddress o else o in
  let o := if is_nil (Logger o)
           then set_Logger default_logger.GetDefaultLogger o else o in
  let o := if String.eqb (Protocol o) ""
           then set_Protocol TRIPLE o else o in
  let o := if String.eqb (SerializerType o) ""
           then set_SerializerType PBSerializerName o else o in
  o.

(** [type OptionFunction func(o *Option)]. *)
Definition OptionFunction : Type := Option -> Option.

(** [NewTripleOption(fs...)]. *)
Definition NewTripleOption (fs : list OptionFunction) : Option :=
  fold_left (fun opt v => v opt) fs zero.

Definition WithClientTimeout (timeout : Z) : OptionFunction := set_Timeout timeout.
Definition WithBufferSize (size : Z) : OptionFunction := set_BufferSize size.
Definition WithSerializerType (serializerType : TripleSerializerName) : OptionFunction :=
  set_SerializerType serializerType.
Definition WithProtocol (protocol : string) : OptionFunction := set_Protocol protocol.
Definition WithLocation (location : string) : OptionFunction := set_Location location.
Definition WithHeaderAppVersion (appVersion : string) : OptionFunction :=
  set_HeaderAppVersion appVersion.
Definition WithHeaderGroup (group : string) : OptionFunction := set_HeaderGroup group.
Definition WithLogger (l : logger.Logger) : OptionFunction := set_Logger l.

End config.

(* ===================================================================== *)
(** ** Packages [common], [codec], [message]: declarations used below     *)
(* ===================================================================== *)

Module common.

(** The interface [common.Dubbo3Serializer], as the adapters call it.
    [UnmarshalResponse data m] writes through the pointer [m]: it returns
    the new pointee next to the error. *)
Record Dubbo3Serializer : Type := mkDubbo3Serializer {
  MarshalRequest : go.Any -> go.bytes * go.error;
  UnmarshalResponse : go.bytes -> go.Any -> go.Any * go.error
}.

(** The interface [common.PackageHandler].  The adapters bind the second
    result of [Frame2PkgData] to the blank identifier, so its type [R] is
    left open here. *)
Record PackageHandler (R : Type) : Type := mkPackageHandler {
  Frame2PkgData : go.bytes -> go.bytes * R;
  Pkg2FrameData : go.bytes -> go.bytes
}.
Arguments mkPackageHandler {R} Frame2PkgData Pkg2FrameData.
Arguments Frame2PkgData {R} p frameData.
Arguments Pkg2FrameData {R} p pkgData.

End common.

Module codec.

(** [codec.HessianUnmarshalStruct]; the client reads its field [Val]. *)
Record HessianUnmarshalStruct : Type := mkHessianUnmarshalStruct { Val : go.Any }.

End codec.

(* ===================================================================== *)
(** ** Package [triple]: the client                                       *)
(* ===================================================================== *)

Module triple.
Import constant.
Local Open Scope go_scope.

(** The controller behind the field [h2Controller].  The type
    [H2Controller] and its methods [Destroy], [IsAvailable], [UnaryInvoke]
    and [StreamInvoke] are declared outside the sources at hand; the client
    only calls them.  What the controller holds, what [Destroy] does to it
    and what the other methods answer are therefore left to the
    environment. *)
Class Controller : Type := {
  H2Controller : Type;
  Destroy : H2Controller -> H2Controller;
  available : H2Controller -> bool;
  unary_reply : H2Controller -> go.Context -> string -> go.Any ->
                codec.HessianUnmarshalStruct -> codec.HessianUnmarshalStruct * go.error;
  stream_reply : H2Controller -> go.Context -> string -> option nat * go.error
}.

(** The generated stub wrapped by [StubInvoker]: [None] is the zero
    [reflect.Value]; otherwise the method set, by name. *)
Definition Method : Type := list reflect.Value -> list reflect.Value.
Definition Stub : Type := option (string -> option Method).

(** Calls that leave the client for code outside the sources, in the
    order they are made. *)
Inductive Outgoing : Type :=
| OutUnaryInvoke (ctx : go.Context) (path : string) (arg : go.Any)
| OutStreamInvoke (ctx : go.Context) (path : string)
| OutStubCall (methodName : string) (args : list reflect.Value)
| OutDestroy
| OutIsAvailable.

Section Client.
Context `{Decls} `{Controller}.

(** [type TripleClient struct].  The controller is owned by the client
    alone, so the pointer [h2Controller] is modelled by its pointee. *)
Record TripleClient : Type := mkTripleClient {
  h2Controller : H2Controller;
  StubInvoker : Stub;
  (* once is used when destroy *)
  once : sync.Once;
  (* triple config *)
  opt : config.Option;
  (* serializer is triple serializer to do codec *)
  serializer : option common.Dubbo3Serializer
}.

Definition set_h2Controller (h : H2Controller) (t : TripleClient) : TripleClient :=
  mkTripleClient h (StubInvoker t) (once t) (opt t) (serializer t).

(** The state a method of [*TripleClient] runs in: the receiver, the log
    and the trace of outgoing calls. *)
Record World : Type := mkWorld {
  self : TripleClient;
  logs : list logger.Line;
  outgoing : list Outgoing
}.

Definition set_self (t : TripleClient) (w : World) : World :=
  mkWorld t (logs w) (outgoing w).
Definition set_logs (l : list logger.Line) (w : World) : World :=
  mkWorld (self w) l (outgoing w).
Definition record (c : Outgoing) (w : World) : World :=
  mkWorld (self w) (logs w) (outgoing w ++ [c]).

(** [t.opt.Logger.<method>(...)]. *)
Definition log (c : logger.Call) : go.M World unit :=
  w <- go.get ;;
  logger.call logs set_logs (config.Logger (opt (self w))) c.

(** [t.h2Controller.UnaryInvoke(ctx, path, arg, reply)]: the call is
    recorded and answered by the environment; the new pointee of [reply]
    comes back next to the error. *)
Definition h2_UnaryInvoke (ctx : go.Context) (path : string) (arg : go.Any)
    (reply : codec.HessianUnmarshalStruct)
    : go.M World (codec.HessianUnmarshalStruct * go.error) :=
  fun w =>
    go.Done (unary_reply (h2Controller (self w)) ctx path arg reply)
            (record (OutUnaryInvoke ctx path arg) w).

(** [t.h2Controller.StreamInvoke(ctx, path)]. *)
Definition h2_StreamInvoke (ctx : go.Context) (path : string)
    : go.M World (option nat * go.error) :=
  fun w =>
    go.Done (stream_reply (h2Controller (self w)) ctx path)
            (record (OutStreamInvoke ctx path) w).

(** [t.h2Controller.Destroy()]: the call is recorded and the controller
    becomes what the environment's [Destroy] makes of it. *)
Definition h2_Destroy : go.M World unit :=
  fun w =>
    go.Done tt
      (record OutDestroy
         (set_self (set_h2Controller (Destroy (h2Controller (self w))) (self w)) w)).

(** [t.h2Controller.IsAvailable()]. *)
Definition h2_IsAvailable : go.M World bool :=
  fun w => go.Done (available (h2Controller (self w))) (record OutIsAvailable w).

(** [t.StubInvoker.MethodByName(methodName)]. *)
Definition MethodByName (v : Stub) (methodName : string) : go.M World (option Method) :=
  match v with
  | None => go.panic "reflect: call of reflect.Value.MethodByName on zero Value"
  | Some methods => go.ret (methods methodName)
  end.

(** [method.Call(in)], for the method found under [methodName]. *)
Definition Call (methodName : string) (method : option Method) (args : list reflect.Value)
    : go.M World (list reflect.Value) :=
  match method with
  | None => go.panic "reflect: call of reflect.Value.Call on zero Value"
  | Some f => fun w => go.Done (f args) (record (OutStubCall methodName args) w)
  end.

(** The type assertions [x.(context.Context)] and [x.(string)]. *)
Definition as_Context (x : go.Any) : go.M World go.Context :=
  match x with
  | go.AnyContext kv => go.ret kv
  | _ => go.panic "interface conversion: interface {} is not context.Context"
  end.

Definition as_string (x : go.Any) : go.M World string :=
  match x with
  | go.AnyString s => go.ret s
  | _ => go.panic "interface conversion: interface {} is not string"
  end.

(** [func (t *TripleClient) Request(ctx, path, arg, reply) error]. *)
Definition Request (ctx : go.Context) (path : string) (arg : go.Any)
    (reply : codec.HessianUnmarshalStruct)
    : go.M World (codec.HessianUnmarshalStruct * go.error) :=
  h2_UnaryInvoke ctx path arg reply.

(** [func (t *TripleClient) StreamRequest(ctx, path) (grpc.ClientStream, error)]. *)
Definition StreamRequest (ctx : go.Context) (path : string)
    : go.M World (option nat * go.error) :=
  h2_StreamInvoke ctx path.

Definition invalid_serializer_format : string :=
  "Invalid triple client serializerType = %s".

(** [func (t *TripleClient) Invoke(methodName string, in []reflect.Value)
    []reflect.Value]. *)
Definition Invoke (methodName : string) (in_ : list reflect.Value)
    : go.M World (list reflect.Value) :=
  w <- go.get ;;
  let t := self w in
  let rsp : list reflect.Value := [] in
  if String.eqb (config.SerializerType (opt t)) PBSerializerName then
    method <- MethodByName (StubInvoker t) methodName ;;
    (* call function in pb.go *)
    Call methodName method in_
  else if String.eqb (config.SerializerType (opt t)) TripleHessianWrapperSerializerName then
    let out := codec.mkHessianUnmarshalStruct go.AnyNil in
    in0 <- go.index in_ 0 ;;
    x0 <- reflect.Interface in0 ;;
    ctx <- as_Context x0 ;;
    interfaceKey <- as_string (go.Value ctx InterfaceKey) ;;
    in1 <- go.index in_ 1 ;;
    arg <- reflect.Interface in1 ;;
    r <- Request ctx ("/" ++ interfaceKey ++ "/" ++ methodName) arg out ;;
    let out := fst r in
    let err := snd r in
    let rsp := rsp ++ [reflect.ValueOf (codec.Val out)] in
    match err with
    | Some e => go.ret (rsp ++ [reflect.ValueOf (go.AnyError e)])
    | None => go.ret (rsp ++ [reflect.Zero])
    end
  else
    log (logger.Errorf invalid_serializer_format
           [go.AnyString (config.SerializerType (opt t))]) ;;;
    let rsp := rsp ++ [reflect.Zero] in
    go.ret (rsp ++ [reflect.ValueOf (go.AnyError
              (go.Errorf invalid_serializer_format [config.SerializerType (opt t)]))]).

(** [func (t *TripleClient) Close()]. *)
Definition Close : go.M World unit :=
  log (logger.Debug [go.AnyString "Triple Client Is closing"]) ;;;
  h2_Destroy.

(** [func (t *TripleClient) IsAvailable() bool]. *)
Definition IsAvailable : go.M World bool :=
  h2_IsAvailable.

(** [n] calls of [Close], one after the other. *)
Fixpoint Close_times (n : nat) : go.M World unit :=
  match n with
  | O => go.ret tt
  | S n' => Close ;;; Close_times n'
  end.

End Client.

Arguments TripleClient {_}.
Arguments World {_}.

End triple.

(* ===================================================================== *)
(** ** Package [message] and package [stream]                             *)
(* ===================================================================== *)

Module message.

(** The declarations of [internal/message] the adapters refer to: the
    type of message tags, its zero value and the tag of a data frame. *)
Class Decls : Type := {
  MsgType : Type;
  MsgType_zero : MsgType;
  DataMsgType : MsgType
}.

End message.

Module metadata.

(** [metadata.MD], a map from header names to values; [None] is the nil
    map. *)
Definition MD : Type := option (list (string * list string)).

End metadata.

Module stream.
Import message.
Local Open Scope go_scope.

Section Adapter.
Context `{Decls}.
(** The type of the second result of [Frame2PkgData]. *)
Context {R : Type}.

(** What travels on the receive channel of a stream: a [*bytes.Buffer],
    nil or holding bytes, and a tag. *)
Record BufferMsg : Type := mkBufferMsg {
  Buffer : option go.bytes;
  msgType : MsgType
}.

(** The zero [BufferMsg], which a closed channel delivers. *)
Definition BufferMsg_zero : BufferMsg := mkBufferMsg None MsgType_zero.

(** [readBuf.Bytes()]. *)
Definition Bytes (b : BufferMsg) : go.bytes :=
  match Buffer b with
  | Some data => data
  | None => []
  end.

(** Modelled from the spec: the implementation behind the interface
    [Stream] is not among the sources.  The specification gives a stream an
    inbound receive queue, "ordered, blocking on empty, closable", and an
    outbound send path on which [send(frame)] enqueues a frame. *)
Record Stream : Type := mkStream {
  recvChan : go.Chan BufferMsg;
  sendPath : list (go.bytes * MsgType)
}.

(** [s.GetRecv()]. *)
Definition GetRecv (s : Stream) : go.Chan BufferMsg := recvChan s.

(** Modelled from the spec: [s.PutSend(data, msgType)] enqueues one frame
    on the outbound path. *)
Definition PutSend (data : go.bytes) (t : MsgType) (s : Stream) : Stream :=
  mkStream (recvChan s) (sendPath s ++ [(data, t)]).

(** [type baseUserStream struct].  The stream is modelled by the value the
    interface points to. *)
Record baseUserStream : Type := mkBaseUserStream {
  opt : config.Option;
  stream : Stream;
  serilizer : common.Dubbo3Serializer;
  pkgHandler : common.PackageHandler R
}.

Definition set_stream (s : Stream) (ss : baseUserStream) : baseUserStream :=
  mkBaseUserStream (opt ss) s (serilizer ss) (pkgHandler ss).

(** The state a method of the adapter runs in: the receiver and the log. *)
Record World : Type := mkWorld {
  self : baseUserStream;
  logs : list logger.Line
}.

Definition set_self (ss : baseUserStream) (w : World) : World := mkWorld ss (logs w).
Definition set_logs (l : list logger.Line) (w : World) : World := mkWorld (self w) l.

(** [ss.opt.Logger.<method>(...)]. *)
Definition log (c : logger.Call) : go.M World unit :=
  w <- go.get ;;
  logger.call logs set_logs (config.Logger (opt (self w))) c.

(** [ss.stream.PutSend(data, msgType)]. *)
Definition stream_PutSend (data : go.bytes) (t : MsgType) : go.M World unit :=
  go.modify (fun w => set_self (set_stream (PutSend data t (stream (self w))) (self w)) w).

(** [<-recvChan] for [recvChan := ss.stream.GetRecv()]. *)
Definition stream_recv : go.M World BufferMsg :=
  fun w =>
    match go.recv BufferMsg_zero (GetRecv (stream (self w))) with
    | Some (readBuf, ch) =>
        (* the value leaves the channel *)
        go.Done readBuf
          (set_self (set_stream (mkStream ch (sendPath (stream (self w)))) (self w)) w)
    | None => go.Blocked w
    end.

(** The adapter state once a receive has taken the channel to [ch]. *)
Definition received (ch : go.Chan BufferMsg) (w : World) : World :=
  set_self (set_stream (mkStream ch (sendPath (stream (self w)))) (self w)) w.

(** [func (ss *baseUserStream) SetHeader(metadata.MD) error]. *)
Definition SetHeader (_ : metadata.MD) : go.M World go.error :=
  go.ret None.

(** [func (ss *baseUserStream) SendHeader(metadata.MD) error]. *)
Definition SendHeader (_ : metadata.MD) : go.M World go.error :=
  go.ret None.

(** [func (ss *baseUserStream) SetTrailer(metadata.MD)]. *)
Definition SetTrailer (_ : metadata.MD) : go.M World unit :=
  go.ret tt.

(** [func (ss *baseUserStream) Context() context.Context]; [None] is the
    nil context. *)
Definition Context_ : go.M World (option go.Context) :=
  go.ret None.

(** [func (ss *baseUserStream) SendMsg(m interface{}) error]. *)
Definition SendMsg (m : go.Any) : go.M World go.error :=
  w <- go.get ;;
  let ss := self w in
  let r := common.MarshalRequest (serilizer ss) m in
  let replyData := fst r in
  let err := snd r in
  match err with
  | Some e =>
      log (logger.Error [go.AnyString "sen msg error with msg = "; m]) ;;;
      go.ret (Some e)
  | None =>
      let rspFrameData := common.Pkg2FrameData (pkgHandler ss) replyData in
      stream_PutSend rspFrameData DataMsgType ;;;
      go.ret None
  end.

(** [func (ss *baseUserStream) RecvMsg(m interface{}) error].  The
    unmarshaller writes through [m]; the pointee after the call is returned
    with the error. *)
Definition RecvMsg (m : go.Any) : go.M World (go.Any * go.error) :=
  w <- go.get ;;
  let ss := self w in
  readBuf <- stream_recv ;;
  match Buffer readBuf with
  | None => go.ret (m, Some (go.Errorf "user stream closed!" []))
  | Some _ =>
      let pkgData := fst (common.Frame2PkgData (pkgHandler ss) (Bytes readBuf)) in
      let u := common.UnmarshalResponse (serilizer ss) pkgData m in
      match snd u with
      | Some err => go.ret (fst u, Some err)
      | None => go.ret (fst u, None)
      end
  end.

(** [type serverUserStream struct { baseUserStream }]. *)
Record serverUserStream : Type := mkServerUserStream {
  server_base : baseUserStream
}.

Definition newServerUserStream (s : Stream) (serilizer : common.Dubbo3Serializer)
    (pkgHandler : common.PackageHandler R) (opt : config.Option) : serverUserStream :=
  mkServerUserStream (mkBaseUserStream opt s serilizer pkgHandler).

(** [type clientUserStream struct { baseUserStream }]. *)
Record clientUserStream : Type := mkClientUserStream {
  client_base : baseUserStream
}.

(** [func (ss *clientUserStream) Header() (metadata.MD, error)]. *)
Definition Header : go.M World (metadata.MD * go.error) :=
  go.ret (None, None).

(** [func (ss *clientUserStream) Trailer() metadata.MD]. *)
Definition Trailer : go.M World metadata.MD :=
  go.ret None.

(** [func (ss *clientUserStream) CloseSend() error]. *)
Definition CloseSend : go.M World go.error :=
  (* todo *)
  go.ret None.

Definition NewClientUserStream (s : Stream) (serilizer : common.Dubbo3Serializer)
    (pkgHandler : common.PackageHandler R) (opt : config.Option) : clientUserStream :=
  mkClientUserStream (mkBaseUserStream opt s serilizer pkgHandler).

End Adapter.

Arguments BufferMsg {_}.
Arguments Stream {_}.
Arguments baseUserStream {_} R.
Arguments World {_} R.
Arguments serverUserStream {_} R.
Arguments clientUserStream {_} R.

End stream.

(* ===================================================================== *)
(** ** A concrete client, a concrete adapter                              *)
(* ===================================================================== *)

(** Values to run the model on.  Nothing proved in general depends on
    them. *)
Module sample.
Import Byte.

Definition decls : constant.Decls := {|
  constant.DefaultTimeout := 15;
  constant.DefaultHttp2ControllerReadBufferSize := 4096;
  constant.DefaultListeningAddress := "127.0.0.1:20001";
  constant.PBSerializerName := "protobuf";
  constant.TripleHessianWrapperSerializerName := "hessian2";
  constant.InterfaceKey := "interface"
|}.

Definition req : go.Any := go.AnyStruct "HelloRequest" [go.AnyString "laurence"].
Definition user : go.Any := go.AnyStruct "User" [go.AnyString "laurence"].

(** A controller holding a connection, with a [Destroy] that releases it
    on every call and a remote side that answers every unary call with
    [user]. *)
Record connection : Type := mkConnection {
  address : string;
  conn : option nat;
  releases : nat
}.

Definition controller : triple.Controller := {|
  triple.H2Controller := connection;
  triple.Destroy := fun h => mkConnection (address h) None (S (releases h));
  triple.available := fun h => match conn h with Some _ => true | None => false end;
  triple.unary_reply := fun _ _ _ _ _ => (codec.mkHessianUnmarshalStruct user, None);
  triple.stream_reply := fun _ _ _ => (Some 1, None)
|}.

Definition ctx : go.Context :=
  go.WithValue
    (go.WithValue go.Background "triple-request-id" (go.AnyString "triple-request-id-demo"))
    "interface" (go.AnyString "com.example.IGreeter").

(** A client as [NewTripleClient] leaves it for the serializer type
    [name]. *)
Definition client (name : string) : @triple.World controller :=
  @triple.mkWorld controller
    (@triple.mkTripleClient controller
       (mkConnection "127.0.0.1:20001" (Some 1) 0)
       None
       sync.zero
       (@config.Validate decls
          (config.NewTripleOption [config.WithSerializerType name]))
       None)
    [] [].

Definition msgs : message.Decls := {|
  message.MsgType := nat;
  message.MsgType_zero := 0;
  message.DataMsgType := 1
|}.

(** A serializer for byte strings only. *)
Definition bytes_serializer : common.Dubbo3Serializer := {|
  common.MarshalRequest := fun m =>
    match m with
    | go.AnyBytes b => (b, None)
    | _ => ([], Some (go.ErrorString "marshal: not a byte string"))
    end;
  common.UnmarshalResponse := fun data m =>
    match data with
    | [] => (m, Some (go.ErrorString "unmarshal: empty payload"))
    | _ => (go.AnyBytes data, None)
    end
|}.

(** A package handler with a one-byte header; de-framing reports an error
    when the header byte is not zero and still returns what follows it. *)
Definition flag_handler : common.PackageHandler go.error := {|
  common.Frame2PkgData := fun frame =>
    match frame with
    | [] => ([], Some (go.ErrorString "deframe: short frame"))
    | x00 :: rest => (rest, None)
    | _ :: rest => (rest, Some (go.ErrorString "deframe: unknown flag"))
    end;
  common.Pkg2FrameData := fun pkg => x00 :: pkg
|}.

(** An adapter over a stream whose receive channel holds [queue]. *)
Definition adapter (queue : list (@stream.BufferMsg msgs)) (closed : bool)
    : @stream.World msgs go.error :=
  stream.mkWorld
    (stream.mkBaseUserStream
       (@config.Validate decls (config.NewTripleOption []))
       (stream.mkStream (go.mkChan queue closed) [])
       bytes_serializer
       flag_handler)
    [].

End sample.

(* ===================================================================== *)
(** ** Callers: repeated calls, and the construction of a client          *)
(* ===================================================================== *)

Module loops.
Local Open Scope go_scope.

(** The state an outcome ends in. *)
Definition final {S A} (o : go.Outcome S A) : S :=
  match o with
  | go.Done _ s => s
  | go.Panic _ s => s
  | go.Blocked s => s
  end.

(** [for i := 0; i < n; i++ { r = append(r, c()) }]. *)
Fixpoint times {S A} (n : nat) (c : go.M S A) : go.M S (list A) :=
  match n with
  | O => go.ret []
  | S n' => a <- c ;; rest <- times n' c ;; go.ret (a :: rest)
  end.

(** [for _, x := range xs { r = append(r, f(x)) }]. *)
Fixpoint each {S A B} (xs : list A) (f : A -> go.M S B) : go.M S (list B) :=
  match xs with
  | [] => go.ret []
  | x :: xs' => b <- f x ;; rest <- each xs' f ;; go.ret (b :: rest)
  end.

End loops.

Module triple_init.
Import constant triple.
Local Open Scope go_scope.

Section Construct.
Context `{Decls} `{Controller}.

(** What [NewTripleClient] and [connect] call outside the sources:
    [tools.AddDefaultOption] (its argument may be the nil pointer),
    [NewH2Controller] (called as [NewH2Controller(false, nil, t.opt)], so
    the nil second argument is left out; the controller it returns may be
    nil), the
    assignment to the field [address] of the controller, and
    [getInvoker(impl, newTripleConn(client))] seen through
    [reflect.ValueOf]. *)
Class Factory : Type := {
  AddDefaultOption : option config.Option -> config.Option;
  NewH2Controller : bool -> config.Option -> option H2Controller * go.error;
  set_address : string -> H2Controller -> H2Controller;
  getInvoker : go.Any -> TripleClient -> Stub
}.

Context `{Factory}.

Definition set_StubInvoker (v : Stub) (t : TripleClient) : TripleClient :=
  mkTripleClient (h2Controller t) v (once t) (opt t) (serializer t).

(** The constructor runs before there is a client: its state is the log. *)
Definition log (l : logger.Logger) (c : logger.Call) : go.M (list logger.Line) unit :=
  logger.call (fun s => s) (fun lines _ => lines) l c.

(** [func (t *TripleClient) connect(opt *config.Option) error], for a
    receiver whose field [opt] is [t_opt].  The result is the controller
    left in [t.h2Controller] when the error is nil, and the error
    otherwise. *)
Definition connect (t_opt : config.Option) (opt : config.Option)
    : go.M (list logger.Line) (H2Controller + go.error_value) :=
  log (config.Logger t_opt)
      (logger.Debugf "want to connect to location = "
         [go.AnyString (config.Location opt)]) ;;;
  let r := NewH2Controller false t_opt in
  match snd r with
  | Some err =>
      log (config.Logger t_opt)
          (logger.Errorf "dubbo client new http2 controller error = %v"
             [go.AnyError err]) ;;;
      go.ret (inr err)
  | None =>
      match fst r with
      | None => go.panic "runtime error: invalid memory address or nil pointer dereference"
      | Some h => go.ret (inl (set_address (config.Location opt) h))
      end
  end.

(** [func NewTripleClient(impl interface{}, opt *config.Option)], which
    returns a [*TripleClient] and an [error]. *)
Definition NewTripleClient (impl : go.Any) (opt : option config.Option)
    : go.M (list logger.Line) (option TripleClient * go.error) :=
  let opt := AddDefaultOption opt in
  (* start triple client connection *)
  r <- connect opt opt ;;
  match r with
  | inr err => go.ret (None, Some err)
  | inl h =>
      let tripleClient := mkTripleClient h None sync.zero opt None in
      (* put dubbo3 network logic to tripleConn, creat pb stub invoker *)
      let tripleClient :=
        if String.eqb (config.SerializerType opt) PBSerializerName
        then set_StubInvoker (getInvoker impl tripleClient) tripleClient
        else tripleClient in
      go.ret (Some tripleClient, None)
  end.

End Construct.

End triple_init.

(** More values to run the model on. *)
Module demo.
Import Byte.

(** Dialling succeeds unless the location is "unreachable:0". *)
Definition dial (_ : bool) (opt : config.Option) : option sample.connection * go.error :=
  if String.eqb (config.Location opt) "unreachable:0"
  then (None, Some (go.ErrorString "dial tcp: connection refused"))
  else (Some (sample.mkConnection "" (Some 1) 0), None).

Definition readdress (a : string) (h : sample.connection) : sample.connection :=
  sample.mkConnection a (sample.conn h) (sample.releases h).

(** A stub with the one method [SayHello]. *)
Definition say_hello : triple.Method :=
  fun _ => [reflect.ValueOf sample.user; reflect.Zero].

Definition greeter_methods (name : string) : option triple.Method :=
  if String.eqb name "SayHello" then Some say_hello else None.

Definition greeter : triple.Stub := Some greeter_methods.

(** A factory that validates the option, dials with [dial] and builds the
    stub [greeter]. *)
Definition factory : @triple_init.Factory sample.controller :=
  @triple_init.Build_Factory sample.controller
    (fun o =>
       match o with
       | Some opt => @config.Validate sample.decls opt
       | None => @config.Validate sample.decls (config.NewTripleOption [])
       end)
    dial
    readdress
    (fun _ _ => greeter).

(** The arguments of a call of [SayHello]. *)
Definition args : list reflect.Value :=
  [reflect.ValueOf (go.AnyContext sample.ctx); reflect.ValueOf sample.req].


(** A client whose option was never validated: its logger is nil. *)
Definition bare_client : @triple.World sample.controller :=
  @triple.mkWorld sample.controller
    (@triple.mkTripleClient sample.controller
       (sample.mkConnection "127.0.0.1:20001" (Some 1) 0)
       None
       sync.zero
       (config.NewTripleOption [config.WithSerializerType "msgpack"])
       None)
    [] [].

(** The nil buffer standing in a queue, and two data messages. *)
Definition sentinel : @stream.BufferMsg sample.msgs :=
  @stream.mkBufferMsg sample.msgs None 0.
Definition frameA : @stream.BufferMsg sample.msgs :=
  @stream.mkBufferMsg sample.msgs (Some [x00; x41]) 1.
Definition frameB : @stream.BufferMsg sample.msgs :=
  @stream.mkBufferMsg sample.msgs (Some [x00; x42]) 1.

(** An adapter whose option was never validated: its logger is nil. *)
Definition bare_adapter : @stream.World sample.msgs go.error :=
  stream.mkWorld
    (stream.mkBaseUserStream
       (config.NewTripleOption [])
       (stream.mkStream (go.mkChan [] false) [])
       sample.bytes_serializer
       sample.flag_handler)
    [].

End demo.

(** What the adapters are expected to make of one message. *)
Module expect.

Section Expect.
Context `{message.Decls} {R : Type}.
Import stream.

(** The result of [RecvMsg m] when [b] is the message read. *)
Definition recv_result (ss : baseUserStream R) (m : go.Any) (b : BufferMsg)
    : go.Any * go.error :=
  match Buffer b with
  | None => (m, Some (go.ErrorString "user stream closed!"))
  | Some data =>
      common.UnmarshalResponse (serilizer ss)
        (fst (common.Frame2PkgData (pkgHandler ss) data)) m
  end.

(** The frames [SendMsg m] puts on the stream: one data frame, or none
    when [m] cannot be marshalled. *)
Definition sent (ss : baseUserStream R) (m : go.Any) : list (go.bytes * message.MsgType) :=
  match snd (common.MarshalRequest (serilizer ss) m) with
  | None =>
      [(common.Pkg2FrameData (pkgHandler ss)
          (fst (common.MarshalRequest (serilizer ss) m)), message.DataMsgType)]
  | Some _ => []
  end.

(** The lines [SendMsg m] writes to the log: one when [m] cannot be
    marshalled. *)
Definition complaints (l : logger.Impl) (ss : baseUserStream R) (m : go.Any)
    : list logger.Line :=
  match snd (common.MarshalRequest (serilizer ss) m) with
  | None => []
  | Some _ => [(l, logger.Error [go.AnyString "sen msg error with msg = "; m])]
  end.

End Expect.

End expect.

(* ===================================================================== *)
(** ** [config]: defaulting                                               *)
(* ===================================================================== *)

Section ConfigFacts.
Context `{constant.Decls}.
Import constant config.

(** [Validate] field by field. *)
Lemma Validate_fields (o : Option) :
  Validate o =
  mkOption
    (if Z.eqb (Timeout o) 0 then uint32 DefaultTimeout else Timeout o)
    (if Z.eqb (BufferSize o) 0
     then uint32 DefaultHttp2ControllerReadBufferSize else BufferSize o)
    (if String.eqb (Location o) "" then DefaultListeningAddress else Location o)
    (if String.eqb (Protocol o) "" then TRIPLE else Protocol o)
    (if String.eqb (SerializerType o) "" then PBSerializerName else SerializerType o)
    (HeaderGroup o)
    (HeaderAppVersion o)
    (if is_nil (Logger o) then default_logger.GetDefaultLogger else Logger o).
Proof.
  destruct o as [t b l p s g a lg]; unfold Validate.
  unfold set_Timeout, set_BufferSize, set_Location, set_Logger, set_Protocol,
    set_SerializerType.
  change (uint32 0) with 0%Z; cbv zeta; cbn [Timeout].
  destruct (Z.eqb t 0); cbn [BufferSize Timeout Location Protocol
    SerializerType HeaderGroup HeaderAppVersion Logger];
  destruct (Z.eqb b 0); cbn [BufferSize Timeout Location Protocol
    SerializerType HeaderGroup HeaderAppVersion Logger];
  destruct (String.eqb l ""); cbn [BufferSize Timeout Location Protocol
    SerializerType HeaderGroup HeaderAppVersion Logger];
  destruct (is_nil lg); cbn [BufferSize Timeout Location Protocol
    SerializerType HeaderGroup HeaderAppVersion Logger];
  destruct (String.eqb p ""); cbn [BufferSize Timeout Location Protocol
    SerializerType HeaderGroup HeaderAppVersion Logger];
  destruct (String.eqb s ""); reflexivity.
Qed.

(** Filling a field twice is filling it once, whatever the default. *)
Lemma fill_twice {A : Type} (test : A -> bool) (d x : A) :
  (if test (if test x then d else x) then d else (if test x then d else x)) =
  (if test x then d else x).
Proof.
  destruct (test x) eqn:Hx.
  - destruct (test d); reflexivity.
  - rewrite Hx. reflexivity.
Qed.

(** After [Validate] the logger is never nil. *)
Lemma Validate_Logger_set (o : Option) : Logger (Validate o) <> None.
Proof.
  rewrite Validate_fields; cbn.
  destruct (Logger o); cbn; discriminate.
Qed.

(** C6.  Validating the option with every field unset ([Option{}]) yields
    the defaults: the timeout and the read-buffer size are the constants
    [DefaultTimeout] and [DefaultHttp2ControllerReadBufferSize] converted to
    [uint32], the location is [DefaultListeningAddress], the protocol is
    "tri", the serializer type is [PBSerializerName], and the logger is not
    nil. *)
Theorem Validate_zero_defaults :
  Timeout (Validate zero) = uint32 DefaultTimeout /\
  BufferSize (Validate zero) = uint32 DefaultHttp2ControllerReadBufferSize /\
  Location (Validate zero) = DefaultListeningAddress /\
  Protocol (Validate zero) = "tri" /\
  SerializerType (Validate zero) = PBSerializerName /\
  Logger (Validate zero) <> None /\
  Validate (NewTripleOption []) = Validate zero.
Proof.
  rewrite Validate_fields; cbn.
  repeat split; discriminate.
Qed.

(** C8.  [Validate] leaves [HeaderGroup] and [HeaderAppVersion] as they
    were, for every option and whatever the two fields hold. *)
Theorem Validate_keeps_header_fields (o : Option) :
  HeaderGroup (Validate o) = HeaderGroup o /\
  HeaderAppVersion (Validate o) = HeaderAppVersion o.
Proof.
  rewrite Validate_fields; cbn. split; reflexivity.
Qed.

(** C10.  [Validate] is idempotent: validating a validated option changes
    nothing, whatever the values of the defaults are.  It only fills fields
    that hold their zero value: a field that was set is kept.  And what it
    leaves in a defaulted field is not the zero value, as far as the default
    itself is not (the protocol and the logger never are). *)
Theorem Validate_idempotent (o : Option) :
  Validate (Validate o) = Validate o /\
  (Timeout o <> 0%Z -> Timeout (Validate o) = Timeout o) /\
  (BufferSize o <> 0%Z -> BufferSize (Validate o) = BufferSize o) /\
  (Location o <> "" -> Location (Validate o) = Location o) /\
  (Protocol o <> "" -> Protocol (Validate o) = Protocol o) /\
  (SerializerType o <> "" -> SerializerType (Validate o) = SerializerType o) /\
  (Logger o <> None -> Logger (Validate o) = Logger o) /\
  (uint32 DefaultTimeout <> 0%Z -> Timeout (Validate o) <> 0%Z) /\
  (uint32 DefaultHttp2ControllerReadBufferSize <> 0%Z -> BufferSize (Validate o) <> 0%Z) /\
  (DefaultListeningAddress <> "" -> Location (Validate o) <> "") /\
  Protocol (Validate o) <> "" /\
  (PBSerializerName <> "" -> SerializerType (Validate o) <> "") /\
  Logger (Validate o) <> None.
Proof.
  split.
  - rewrite (Validate_fields (Validate o)).
    rewrite (Validate_fields o); cbn.
    rewrite (fill_twice (fun t => Z.eqb t 0)).
    rewrite (fill_twice (fun t => Z.eqb t 0)).
    rewrite !(fill_twice (fun t => String.eqb t "")).
    rewrite (fill_twice is_nil).
    reflexivity.
  - rewrite Validate_fields; cbn.
    repeat split; intros Hset.
    + destruct (Z.eqb_spec (Timeout o) 0); [contradiction | reflexivity].
    + destruct (Z.eqb_spec (BufferSize o) 0); [contradiction | reflexivity].
    + destruct (String.eqb_spec (Location o) ""); [contradiction | reflexivity].
    + destruct (String.eqb_spec (Protocol o) ""); [contradiction | reflexivity].
    + destruct (String.eqb_spec (SerializerType o) ""); [contradiction | reflexivity].
    + destruct (Logger o); [reflexivity | contradiction].
    + destruct (Z.eqb_spec (Timeout o) 0); assumption.
    + destruct (Z.eqb_spec (BufferSize o) 0); assumption.
    + destruct (String.eqb_spec (Location o) ""); assumption.
    + destruct (String.eqb_spec (Protocol o) ""); [discriminate | contradiction].
    + destruct (String.eqb_spec (SerializerType o) ""); assumption.
    + destruct (Logger o); discriminate.
Qed.

End ConfigFacts.

(* ===================================================================== *)
(** ** [triple]: invocation dispatch                                      *)
(* ===================================================================== *)

Lemma append_empty_r (s : string) : (s ++ "")%string = s.
Proof.
  induction s as [|c s IH]; cbn; [reflexivity | now rewrite IH].
Qed.

(** The message of the error built for a serializer type [name]. *)
Lemma invalid_serializer_message (name : string) :
  go.Sprintf triple.invalid_serializer_format [name] =
  ("Invalid triple client serializerType = " ++ name)%string.
Proof.
  cbn. now rewrite append_empty_r.
Qed.

Section InvokeFacts.
Context `{constant.Decls} `{triple.Controller}.
Import constant triple.

(** On a zero-length or one-element argument slice the Hessian branch
    panics on its index expressions; on a context without the interface
    key it panics on the type assertion. *)
Lemma Invoke_hessian_short_args (w : World) (methodName : string) :
  PBSerializerName <> TripleHessianWrapperSerializerName ->
  config.SerializerType (opt (self w)) = TripleHessianWrapperSerializerName ->
  Invoke methodName [] w = go.Panic "runtime error: index out of range" w.
Proof.
  intros Hne Hty. unfold Invoke, go.bind, go.get. rewrite Hty.
  destruct (String.eqb_spec TripleHessianWrapperSerializerName PBSerializerName) as [E|_].
  - now elim Hne.
  - now rewrite String.eqb_refl.
Qed.

(** C2.  On a client whose serializer type is the Hessian wrapper,
    [Invoke methodName in] with [in[0]] a context that carries the string
    [interfaceKey] under [constant.InterfaceKey] and [in[1]] the request
    [arg]: makes exactly one unary call, on the path
    ["/" + interfaceKey + "/" + methodName] with [arg] as its body, and
    returns the two values [reflect.ValueOf(out.Val)] and then the error,
    which is the zero [reflect.Value] when the call reports none. *)
Theorem Invoke_hessian_unary
    (w : World) (methodName : string) (in_ : list reflect.Value)
    (ctx : go.Context) (interfaceKey : string) (arg : go.Any) :
  PBSerializerName <> TripleHessianWrapperSerializerName ->
  config.SerializerType (opt (self w)) = TripleHessianWrapperSerializerName ->
  nth_error in_ 0 = Some (reflect.ValueOf (go.AnyContext ctx)) ->
  nth_error in_ 1 = Some (reflect.ValueOf arg) ->
  arg <> go.AnyNil ->
  go.Value ctx InterfaceKey = go.AnyString interfaceKey ->
  let path := ("/" ++ interfaceKey ++ "/" ++ methodName)%string in
  let r := unary_reply (h2Controller (self w)) ctx path arg
             (codec.mkHessianUnmarshalStruct go.AnyNil) in
  Invoke methodName in_ w =
    go.Done [reflect.ValueOf (codec.Val (fst r));
             match snd r with
             | Some e => reflect.ValueOf (go.AnyError e)
             | None => reflect.Zero
             end]
            (record (OutUnaryInvoke ctx path arg) w)
  /\ Request ctx path arg (codec.mkHessianUnmarshalStruct go.AnyNil) w =
       go.Done r (record (OutUnaryInvoke ctx path arg) w).
Proof.
  intros Hne Hty Hin0 Hin1 Harg Hkey path r.
  split; [| reflexivity].
  unfold Invoke, go.bind, go.get. rewrite Hty.
  destruct (String.eqb_spec TripleHessianWrapperSerializerName PBSerializerName) as [E|_].
  { now elim Hne. }
  rewrite String.eqb_refl.
  unfold go.index. rewrite Hin0. cbn [go.ret reflect.ValueOf reflect.Interface as_Context].
  rewrite Hkey. cbn [as_string go.ret].
  rewrite Hin1. cbn [go.ret].
  assert (Hof : reflect.ValueOf arg = reflect.Of arg)
    by (clear - Harg; destruct arg; [now elim Harg | reflexivity ..]).
  rewrite Hof. cbn [reflect.Interface go.ret].
  unfold Request, h2_UnaryInvoke. fold path. fold r.
  destruct (snd r); reflexivity.
Qed.

(** C3.  On a client whose serializer type is neither [PBSerializerName]
    nor [TripleHessianWrapperSerializerName] (and whose logger is set, as
    [Validate] leaves it), [Invoke] writes one [Errorf] line carrying the
    type to the log and returns the zero value followed by an error whose
    message ends in the type; the trace of outgoing calls and the client
    are unchanged. *)
Theorem Invoke_unknown_serializer
    (w : World) (methodName : string) (in_ : list reflect.Value) (l : logger.Impl) :
  config.SerializerType (opt (self w)) <> PBSerializerName ->
  config.SerializerType (opt (self w)) <> TripleHessianWrapperSerializerName ->
  config.Logger (opt (self w)) = Some l ->
  let name := config.SerializerType (opt (self w)) in
  let w' := set_logs
              (logs w ++ [(l, logger.Errorf "Invalid triple client serializerType = %s"
                                [go.AnyString name])]) w in
  Invoke methodName in_ w =
    go.Done [reflect.Zero;
             reflect.Of (go.AnyError
               (go.ErrorString ("Invalid triple client serializerType = " ++ name)%string))]
            w'
  /\ outgoing w' = outgoing w /\ self w' = self w.
Proof.
  intros Hpb Hhs Hlog name w'.
  split; [| split; reflexivity].
  unfold Invoke, go.bind, go.get.
  destruct (String.eqb_spec (config.SerializerType (opt (self w))) PBSerializerName) as [E|_].
  { now elim Hpb. }
  destruct (String.eqb_spec (config.SerializerType (opt (self w)))
              TripleHessianWrapperSerializerName) as [E|_].
  { now elim Hhs. }
  unfold log, go.bind, go.get. rewrite Hlog.
  unfold logger.call, go.modify, go.ret, go.Errorf.
  rewrite invalid_serializer_message.
  reflexivity.
Qed.

End InvokeFacts.

(* ===================================================================== *)
(** ** [triple]: teardown                                                 *)
(* ===================================================================== *)

Section CloseFacts.
Context `{triple.Controller}.
Import triple.

(** One call of [Close]: a log line, then [Destroy] on the controller.
    The field [once] of the client is neither read nor written. *)
Lemma Close_runs (w : World) (l : logger.Impl) :
  config.Logger (opt (self w)) = Some l ->
  Close w =
    go.Done tt
      (mkWorld
         (set_h2Controller (Destroy (h2Controller (self w))) (self w))
         (logs w ++ [(l, logger.Debug [go.AnyString "Triple Client Is closing"])])
         (outgoing w ++ [OutDestroy])).
Proof.
  intros Hl. unfold Close, log, go.bind, go.get. rewrite Hl. reflexivity.
Qed.

Lemma iter_Destroy_shift (n : nat) (h : H2Controller) :
  Nat.iter n Destroy (Destroy h) = Destroy (Nat.iter n Destroy h).
Proof.
  symmetry. exact (Nat.iter_succ_r n _ Destroy h).
Qed.

(** [n] calls of [Close] in a row. *)
Lemma Close_times_runs (n : nat) : forall (w : World),
  config.Logger (opt (self w)) <> None ->
  exists w',
    Close_times n w = go.Done tt w' /\
    h2Controller (self w') = Nat.iter n Destroy (h2Controller (self w)) /\
    outgoing w' = outgoing w ++ repeat OutDestroy n /\
    length (logs w') = length (logs w) + n /\
    once (self w') = once (self w) /\
    opt (self w') = opt (self w).
Proof.
  induction n as [|n IH]; intros w Hl.
  - exists w. cbn. rewrite app_nil_r, Nat.add_0_r. repeat split.
  - destruct (config.Logger (opt (self w))) as [l|] eqn:El; [| now elim Hl].
    pose proof (Close_runs w l El) as E1.
    set (w1 := mkWorld
                 (set_h2Controller (Destroy (h2Controller (self w))) (self w))
                 (logs w ++ [(l, logger.Debug [go.AnyString "Triple Client Is closing"])])
                 (outgoing w ++ [OutDestroy])) in *.
    destruct (IH w1) as (w' & E & Hh & Ho & Hn & Hc & Hp).
    { cbn. rewrite El. discriminate. }
    exists w'. cbn [Close_times]. unfold go.bind at 1. rewrite E1.
    split; [exact E |].
    rewrite Hh, Ho, Hn, Hc, Hp. cbn.
    rewrite iter_Destroy_shift, <- app_assoc, length_app. cbn.
    repeat split. lia.
Qed.

(** C1.  [Close] has no guard of its own: [n] successive calls on a
    client (whose logger is set) return without a panic, write [n] log
    lines and call [Destroy] on the controller [n] times, once per call;
    the [once] of the client is left as it was.  Whether the teardown runs
    once is thus left to [Destroy] alone. *)
Theorem Close_calls_Destroy_every_time (n : nat) (w : World) :
  config.Logger (opt (self w)) <> None ->
  exists w',
    Close_times n w = go.Done tt w' /\
    h2Controller (self w') = Nat.iter n Destroy (h2Controller (self w)) /\
    outgoing w' = outgoing w ++ repeat OutDestroy n /\
    length (logs w') = length (logs w) + n /\
    once (self w') = once (self w).
Proof.
  intros Hl.
  destruct (Close_times_runs n w Hl) as (w' & E & Hh & Ho & Hn & Hc & _).
  exists w'. repeat split; assumption.
Qed.

(** When [Destroy] is itself idempotent, the controller after any number
    of calls of [Close] is the controller after the first. *)
Lemma Close_times_idempotent_Destroy (n : nat) (w : World) :
  (forall h, Destroy (Destroy h) = Destroy h) ->
  config.Logger (opt (self w)) <> None ->
  exists w1 wn,
    Close w = go.Done tt w1 /\
    Close_times (S n) w = go.Done tt wn /\
    h2Controller (self wn) = h2Controller (self w1).
Proof.
  intros Hid Hl.
  destruct (config.Logger (opt (self w))) as [l|] eqn:El; [| now elim Hl].
  destruct (Close_times_runs (S n) w) as (wn & En & Hh & _).
  { rewrite El. discriminate. }
  eexists; exists wn. split; [exact (Close_runs w l El) |].
  split; [exact En |].
  rewrite Hh. cbn [h2Controller self set_h2Controller].
  clear - Hid. induction n as [|n IH]; [reflexivity |].
  change (Nat.iter (S (S n)) Destroy (h2Controller (self w)))
    with (Destroy (Nat.iter (S n) Destroy (h2Controller (self w)))).
  now rewrite IH, Hid.
Qed.

End CloseFacts.

(* ===================================================================== *)
(** ** [stream]: the user stream adapters                                 *)
(* ===================================================================== *)

Section AdapterFacts.
Context `{message.Decls} {R : Type}.
Import stream.

(** A receive that finds a value delivers it and advances the channel. *)
Lemma stream_recv_some (w : World R) (readBuf : BufferMsg) (ch : go.Chan BufferMsg) :
  go.recv BufferMsg_zero (GetRecv (stream (self w))) = Some (readBuf, ch) ->
  stream_recv w = go.Done readBuf (received ch w).
Proof.
  intros Hr. unfold stream_recv. now rewrite Hr.
Qed.

(** On an open channel with nothing queued, [RecvMsg] parks. *)
Lemma RecvMsg_blocks (w : World R) (m : go.Any) :
  go.recv BufferMsg_zero (GetRecv (stream (self w))) = None ->
  RecvMsg m w = go.Blocked w.
Proof.
  intros Hr. unfold RecvMsg, go.bind, go.get, stream_recv. now rewrite Hr.
Qed.

(** A closed and drained channel delivers the nil buffer. *)
Lemma recv_closed_sentinel (ch : go.Chan BufferMsg) :
  go.queue ch = [] -> go.closed ch = true ->
  go.recv BufferMsg_zero ch = Some (BufferMsg_zero, ch) /\ Buffer BufferMsg_zero = None.
Proof.
  intros Hq Hc. unfold go.recv. now rewrite Hq, Hc.
Qed.

(** C4.  When [RecvMsg] reads the value [readBuf] from the receive
    channel of the stream: if its buffer is nil the call fails with the
    error "user stream closed!" and the out-object is untouched; otherwise
    the bytes are de-framed by [Frame2PkgData], the payload is handed to
    [UnmarshalResponse] together with the out-object, and the error of
    [UnmarshalResponse] is the error of the call (nil when it reports
    none). *)
Theorem RecvMsg_closed_or_unmarshal
    (w : World R) (m : go.Any) (readBuf : BufferMsg) (ch : go.Chan BufferMsg) :
  go.recv BufferMsg_zero (GetRecv (stream (self w))) = Some (readBuf, ch) ->
  (Buffer readBuf = None ->
     RecvMsg m w =
       go.Done (m, Some (go.ErrorString "user stream closed!")) (received ch w)) /\
  (forall data, Buffer readBuf = Some data ->
     let pkgData := fst (common.Frame2PkgData (pkgHandler (self w)) data) in
     let u := common.UnmarshalResponse (serilizer (self w)) pkgData m in
     RecvMsg m w = go.Done (fst u, snd u) (received ch w)).
Proof.
  intros Hr. split.
  - intros Hb. unfold RecvMsg, go.bind, go.get.
    rewrite (stream_recv_some _ _ _ Hr), Hb. reflexivity.
  - intros data Hb pkgData u. unfold RecvMsg, go.bind, go.get.
    rewrite (stream_recv_some _ _ _ Hr), Hb.
    unfold Bytes. rewrite Hb. fold pkgData. fold u.
    destruct (snd u); reflexivity.
Qed.

(** C9.  In [RecvMsg] the second result of [Frame2PkgData] is dropped:
    whatever it is (an error included), the payload returned next to it is
    handed to [UnmarshalResponse], and the error of the call is the error of
    [UnmarshalResponse] and nothing else. *)
Theorem RecvMsg_drops_deframing_result
    (w : World R) (m : go.Any) (readBuf : BufferMsg) (ch : go.Chan BufferMsg)
    (data pkgData : go.bytes) (second : R) :
  go.recv BufferMsg_zero (GetRecv (stream (self w))) = Some (readBuf, ch) ->
  Buffer readBuf = Some data ->
  common.Frame2PkgData (pkgHandler (self w)) data = (pkgData, second) ->
  RecvMsg m w =
    go.Done (common.UnmarshalResponse (serilizer (self w)) pkgData m) (received ch w).
Proof.
  intros Hr Hb Hf. unfold RecvMsg, go.bind, go.get.
  rewrite (stream_recv_some _ _ _ Hr), Hb.
  unfold Bytes. rewrite Hb, Hf. cbn [fst].
  destruct (common.UnmarshalResponse (serilizer (self w)) pkgData m) as [m' [e|]];
    reflexivity.
Qed.

(** C5.  [SendMsg] (with the logger set, as [Validate] leaves it) returns,
    and returns an error exactly when [MarshalRequest] reports one.  In that
    case the result is that error, one [Error] line with the message is
    written to the log and the stream is left as it was.  Otherwise the
    payload framed by [Pkg2FrameData] is put on the stream once, tagged
    [DataMsgType], the receive channel and the log are left as they were and
    the result is nil. *)
Theorem SendMsg_error_iff_marshal_fails (w : World R) (m : go.Any) (l : logger.Impl) :
  config.Logger (opt (self w)) = Some l ->
  let r := common.MarshalRequest (serilizer (self w)) m in
  exists (res : go.error) (w' : World R),
    SendMsg m w = go.Done res w' /\
    (res <> None <-> snd r <> None) /\
    res = snd r /\
    (snd r <> None ->
       logs w' = logs w ++
         [(l, logger.Error [go.AnyString "sen msg error with msg = "; m])] /\
       self w' = self w) /\
    (snd r = None ->
       sendPath (stream (self w')) =
         sendPath (stream (self w)) ++
           [(common.Pkg2FrameData (pkgHandler (self w)) (fst r), message.DataMsgType)] /\
       recvChan (stream (self w')) = recvChan (stream (self w)) /\
       logs w' = logs w).
Proof.
  intros Hl r. unfold SendMsg, go.bind, go.get. fold r.
  destruct (snd r) as [e|] eqn:He.
  - unfold log, go.bind, go.get. rewrite Hl.
    eexists; eexists. split; [reflexivity |].
    split; [tauto |]. split; [reflexivity |].
    split; [intros _; split; reflexivity | discriminate].
  - eexists; eexists. split; [reflexivity |].
    split; [tauto |]. split; [reflexivity |].
    split; [intros Hn; now elim Hn | intros _; repeat split].
Qed.

(** C7.  The metadata operations of the adapters do nothing: [SetHeader],
    [SendHeader] and [SetTrailer] of the base adapter and [Header],
    [Trailer] and [CloseSend] of the client variant return nil (or nothing)
    for every argument and leave the adapter, its stream and the log as
    they were. *)
Theorem metadata_operations_are_noops (w : World R) (md : metadata.MD) :
  SetHeader md w = go.Done None w /\
  SendHeader md w = go.Done None w /\
  SetTrailer md w = go.Done tt w /\
  Header w = go.Done (None, None) w /\
  Trailer w = go.Done None w /\
  CloseSend w = go.Done None w.
Proof.
  repeat split.
Qed.

End AdapterFacts.

(* ===================================================================== *)
(** ** Concrete runs                                                      *)
(* ===================================================================== *)

Section Runs.
Import Byte.
Local Existing Instance sample.decls.
Local Existing Instance sample.controller.
Local Existing Instance sample.msgs.

(** The defaulted sample option. *)
Example Validate_sample :
  config.Validate (config.NewTripleOption [config.WithHeaderGroup "dubbogo"]) =
  config.mkOption 15 4096 "127.0.0.1:20001" "tri" "protobuf" "dubbogo" ""
    (Some logger.BuiltIn).
Proof. reflexivity. Qed.

(** [Invoke] on the Hessian client without the interface key in the
    context panics on the type assertion. *)
Example Invoke_hessian_missing_key :
  triple.Invoke "SayHello"
    [reflect.ValueOf (go.AnyContext go.Background); reflect.ValueOf sample.req]
    (sample.client "hessian2") =
  go.Panic "interface conversion: interface {} is not string" (sample.client "hessian2").
Proof. reflexivity. Qed.

(** [SendMsg] of a byte string puts one framed data message on the
    stream. *)
Example SendMsg_bytes :
  stream.SendMsg (go.AnyBytes [x41]) (sample.adapter [] false) =
  go.Done None
    (stream.mkWorld
       (stream.mkBaseUserStream
          (config.Validate (config.NewTripleOption []))
          (stream.mkStream (go.mkChan [] false) [([x00; x41], 1)])
          sample.bytes_serializer sample.flag_handler)
       []).
Proof. reflexivity. Qed.

(** [RecvMsg] on an open stream with nothing queued parks the caller. *)
Example RecvMsg_parks :
  stream.RecvMsg go.AnyNil (sample.adapter [] false) =
  go.Blocked (sample.adapter [] false).
Proof. reflexivity. Qed.

End Runs.

(** Two calls of [Close] on the sample client: two log lines, two calls
    of [Destroy], two releases of the connection, and the [once] of the
    client still unspent. *)
Lemma Close_calls_Destroy_every_time_witness :
  exists w',
    @triple.Close_times sample.controller 2 (sample.client "protobuf") = go.Done tt w' /\
    triple.h2Controller (triple.self w') =
      sample.mkConnection "127.0.0.1:20001" None 2 /\
    triple.outgoing w' = [triple.OutDestroy; triple.OutDestroy] /\
    length (triple.logs w') = 2 /\
    triple.once (triple.self w') = sync.zero.
Proof.
  destruct (@Close_calls_Destroy_every_time sample.controller 2
              (sample.client "protobuf"))
    as (w' & Hrun & Hh & Ho & Hn & Hc).
  - discriminate.
  - exists w'. repeat split; assumption.
Defined.

(** [SayHello] through the Hessian client: one unary call on
    [/com.example.IGreeter/SayHello], and the reply followed by the zero
    value. *)
Lemma Invoke_hessian_unary_witness :
  @triple.Invoke sample.decls sample.controller "SayHello"
    [reflect.ValueOf (go.AnyContext sample.ctx); reflect.ValueOf sample.req]
    (sample.client "hessian2") =
  go.Done [reflect.ValueOf sample.user; reflect.Zero]
    (triple.record
       (triple.OutUnaryInvoke sample.ctx "/com.example.IGreeter/SayHello" sample.req)
       (sample.client "hessian2")).
Proof.
  refine (proj1 (@Invoke_hessian_unary sample.decls sample.controller
            (sample.client "hessian2") "SayHello"
            [reflect.ValueOf (go.AnyContext sample.ctx); reflect.ValueOf sample.req]
            sample.ctx "com.example.IGreeter" sample.req _ _ _ _ _ _)).
  - discriminate.
  - reflexivity.
  - reflexivity.
  - reflexivity.
  - discriminate.
  - reflexivity.
Defined.

(** [SayHello] through a client configured with "msgpack": one log line,
    an error result, no outgoing call. *)
Lemma Invoke_unknown_serializer_witness :
  @triple.Invoke sample.decls sample.controller "SayHello"
    [reflect.ValueOf (go.AnyContext sample.ctx); reflect.ValueOf sample.req]
    (sample.client "msgpack") =
  go.Done
    [reflect.Zero;
     reflect.Of (go.AnyError
       (go.ErrorString "Invalid triple client serializerType = msgpack"))]
    (triple.set_logs
       [(logger.BuiltIn,
         logger.Errorf "Invalid triple client serializerType = %s"
           [go.AnyString "msgpack"])]
       (sample.client "msgpack")).
Proof.
  refine (proj1 (@Invoke_unknown_serializer sample.decls sample.controller
            (sample.client "msgpack") "SayHello"
            [reflect.ValueOf (go.AnyContext sample.ctx); reflect.ValueOf sample.req]
            logger.BuiltIn _ _ _)).
  - discriminate.
  - discriminate.
  - reflexivity.
Defined.

(** [RecvMsg] on a closed, drained stream, and on a stream holding a frame
    whose payload the serializer rejects. *)
Lemma RecvMsg_closed_or_unmarshal_witness :
  (let w := sample.adapter [] true in
   @stream.RecvMsg sample.msgs go.error go.AnyNil w =
     go.Done (go.AnyNil, Some (go.ErrorString "user stream closed!")) w) /\
  (let w := sample.adapter
              [@stream.mkBufferMsg sample.msgs (Some [Byte.x00]) 1] false in
   @stream.RecvMsg sample.msgs go.error go.AnyNil w =
     go.Done (go.AnyNil, Some (go.ErrorString "unmarshal: empty payload"))
       (sample.adapter [] false)).
Proof.
  split.
  - refine (proj1 (@RecvMsg_closed_or_unmarshal sample.msgs go.error
              (sample.adapter [] true) go.AnyNil
              (@stream.BufferMsg_zero sample.msgs) (go.mkChan [] true) _) _);
      reflexivity.
  - refine (proj2 (@RecvMsg_closed_or_unmarshal sample.msgs go.error
              (sample.adapter [@stream.mkBufferMsg sample.msgs (Some [Byte.x00]) 1] false)
              go.AnyNil
              (@stream.mkBufferMsg sample.msgs (Some [Byte.x00]) 1)
              (go.mkChan [] false) _) [Byte.x00] _);
      reflexivity.
Defined.

(** [RecvMsg] on a frame for which de-framing reports an error: the call
    succeeds with the bytes that came back next to it. *)
Lemma RecvMsg_drops_deframing_result_witness :
  let w := sample.adapter
             [@stream.mkBufferMsg sample.msgs (Some [Byte.x01; Byte.x41]) 1] false in
  common.Frame2PkgData sample.flag_handler [Byte.x01; Byte.x41] =
    ([Byte.x41], Some (go.ErrorString "deframe: unknown flag")) /\
  @stream.RecvMsg sample.msgs go.error go.AnyNil w =
    go.Done (go.AnyBytes [Byte.x41], None) (sample.adapter [] false).
Proof.
  split; [reflexivity |].
  refine (@RecvMsg_drops_deframing_result sample.msgs go.error
            (sample.adapter
               [@stream.mkBufferMsg sample.msgs (Some [Byte.x01; Byte.x41]) 1] false)
            go.AnyNil
            (@stream.mkBufferMsg sample.msgs (Some [Byte.x01; Byte.x41]) 1)
            (go.mkChan [] false)
            [Byte.x01; Byte.x41] [Byte.x41]
            (Some (go.ErrorString "deframe: unknown flag")) _ _ _);
    reflexivity.
Defined.

(** [SendMsg] of a message the serializer rejects: the error comes back
    and the adapter, its stream included, is as before. *)
Lemma SendMsg_error_iff_marshal_fails_witness :
  let w := sample.adapter [] false in
  exists (res : go.error) (w' : @stream.World sample.msgs go.error),
    @stream.SendMsg sample.msgs go.error sample.req w = go.Done res w' /\
    (res <> None <-> snd (common.MarshalRequest sample.bytes_serializer sample.req) <> None) /\
    res = Some (go.ErrorString "marshal: not a byte string") /\
    stream.self w' = stream.self w.
Proof.
  destruct (@SendMsg_error_iff_marshal_fails sample.msgs go.error
              (sample.adapter [] false) sample.req logger.BuiltIn eq_refl)
    as (res & w' & Hrun & Hiff & Hres & Hfail & _).
  exists res, w'.
  split; [exact Hrun |]. split; [exact Hiff |]. split; [exact Hres |].
  apply Hfail. discriminate.
Defined.

(* ===================================================================== *)
(** ** [config]: building an option                                       *)
(* ===================================================================== *)

Section OptionBuilderFacts.
Context `{constant.Decls}.
Import constant config.

Lemma NewTripleOption_snoc (fs : list OptionFunction) (f : OptionFunction) :
  NewTripleOption (fs ++ [f]) = f (NewTripleOption fs).
Proof.
  unfold NewTripleOption. now rewrite fold_left_app.
Qed.

(** X1.  [NewTripleOption] applies the option functions from left to
    right: the last function of the list acts on what the ones before it
    built, so the last [With...] of a field decides that field whatever
    precedes it. *)
Theorem NewTripleOption_last_setting_wins (fs : list OptionFunction) :
  (forall f, NewTripleOption (fs ++ [f]) = f (NewTripleOption fs)) /\
  (forall v, Timeout (NewTripleOption (fs ++ [WithClientTimeout v])) = v) /\
  (forall v, BufferSize (NewTripleOption (fs ++ [WithBufferSize v])) = v) /\
  (forall v, Location (NewTripleOption (fs ++ [WithLocation v])) = v) /\
  (forall v, Protocol (NewTripleOption (fs ++ [WithProtocol v])) = v) /\
  (forall v, SerializerType (NewTripleOption (fs ++ [WithSerializerType v])) = v) /\
  (forall v, HeaderGroup (NewTripleOption (fs ++ [WithHeaderGroup v])) = v) /\
  (forall v, HeaderAppVersion (NewTripleOption (fs ++ [WithHeaderAppVersion v])) = v) /\
  (forall v, Logger (NewTripleOption (fs ++ [WithLogger v])) = v).
Proof.
  split; [intros f; apply NewTripleOption_snoc |].
  repeat split; intros v; rewrite NewTripleOption_snoc; reflexivity.
Qed.

(** X2.  A field set to its zero value on purpose is not told apart from
    an unset one: whatever the other option functions do, [Validate]
    replaces a final [WithClientTimeout(0)], [WithBufferSize(0)],
    [WithLocation("")], [WithProtocol("")], [WithSerializerType("")] or
    [WithLogger(nil)] by the default. *)
Theorem Validate_overrides_explicit_zero (fs : list OptionFunction) :
  Timeout (Validate (NewTripleOption (fs ++ [WithClientTimeout 0]))) =
    uint32 DefaultTimeout /\
  BufferSize (Validate (NewTripleOption (fs ++ [WithBufferSize 0]))) =
    uint32 DefaultHttp2ControllerReadBufferSize /\
  Location (Validate (NewTripleOption (fs ++ [WithLocation ""]))) =
    DefaultListeningAddress /\
  Protocol (Validate (NewTripleOption (fs ++ [WithProtocol ""]))) = TRIPLE /\
  SerializerType (Validate (NewTripleOption (fs ++ [WithSerializerType ""]))) =
    PBSerializerName /\
  Logger (Validate (NewTripleOption (fs ++ [WithLogger None]))) =
    default_logger.GetDefaultLogger.
Proof.
  repeat split; rewrite NewTripleOption_snoc, Validate_fields; reflexivity.
Qed.

(** X3.  Setting a field and validating commute as long as the value set
    is not the zero value of the field; for the two header fields they
    commute always.  So an option may as well be validated first and
    completed afterwards. *)
Theorem Validate_commutes_with_setters (o : Option) :
  (forall v, v <> 0%Z ->
     Validate (WithClientTimeout v o) = WithClientTimeout v (Validate o)) /\
  (forall v, v <> 0%Z ->
     Validate (WithBufferSize v o) = WithBufferSize v (Validate o)) /\
  (forall v, v <> "" ->
     Validate (WithLocation v o) = WithLocation v (Validate o)) /\
  (forall v, v <> "" ->
     Validate (WithProtocol v o) = WithProtocol v (Validate o)) /\
  (forall v, v <> "" ->
     Validate (WithSerializerType v o) = WithSerializerType v (Validate o)) /\
  (forall v, v <> None ->
     Validate (WithLogger v o) = WithLogger v (Validate o)) /\
  (forall v, Validate (WithHeaderGroup v o) = WithHeaderGroup v (Validate o)) /\
  (forall v, Validate (WithHeaderAppVersion v o) = WithHeaderAppVersion v (Validate o)).
Proof.
  repeat split; intros v; try intros Hv;
    rewrite !Validate_fields;
    unfold WithClientTimeout, WithBufferSize, WithLocation, WithProtocol,
      WithSerializerType, WithLogger, WithHeaderGroup, WithHeaderAppVersion,
      set_Timeout, set_BufferSize, set_Location, set_Protocol,
      set_SerializerType, set_Logger, set_HeaderGroup, set_HeaderAppVersion;
    cbn [Timeout BufferSize Location Protocol SerializerType HeaderGroup
         HeaderAppVersion Logger].
  - destruct (Z.eqb_spec v 0); [contradiction | reflexivity].
  - destruct (Z.eqb_spec v 0); [contradiction | reflexivity].
  - destruct (String.eqb_spec v ""); [contradiction | reflexivity].
  - destruct (String.eqb_spec v ""); [contradiction | reflexivity].
  - destruct (String.eqb_spec v ""); [contradiction | reflexivity].
  - destruct v; [reflexivity | contradiction].
  - reflexivity.
  - reflexivity.
Qed.

End OptionBuilderFacts.

(* ===================================================================== *)
(** ** [triple]: what [Invoke] leaves alone, and its other branches       *)
(* ===================================================================== *)

Section InvokeMoreFacts.
Context `{constant.Decls} `{triple.Controller}.
Import constant triple loops.

Local Ltac grown :=
  first [ exists []; rewrite app_nil_r; split; [reflexivity | cbn; lia]
        | eexists; split; [reflexivity | cbn; lia] ].

Local Ltac framed := cbn; split; [reflexivity | split; grown].

(** X4.  Whatever the serializer type, the arguments and the outcome
    (a return or a panic), [Invoke] leaves the client as it was, writes at
    most one line to the log and makes at most one outgoing call. *)
Theorem Invoke_keeps_client (w : World) (methodName : string) (in_ : list reflect.Value) :
  let w' := final (Invoke methodName in_ w) in
  self w' = self w /\
  (exists lines, logs w' = logs w ++ lines /\ length lines <= 1) /\
  (exists calls, outgoing w' = outgoing w ++ calls /\ length calls <= 1).
Proof.
  unfold Invoke, go.bind, go.get.
  destruct (String.eqb (config.SerializerType (opt (self w))) PBSerializerName).
  - unfold MethodByName.
    destruct (StubInvoker (self w)) as [methods|]; [| framed].
    cbn. destruct (methods methodName); framed.
  - destruct (String.eqb (config.SerializerType (opt (self w)))
                TripleHessianWrapperSerializerName).
    + unfold go.index.
      destruct in_ as [|[|x0] rest]; [framed | framed |].
      cbn [nth_error go.ret reflect.Interface].
      destruct x0; try framed.
      cbn [as_Context go.ret].
      destruct (go.Value kv InterfaceKey); try framed.
      cbn [as_string go.ret].
      destruct rest as [|[|x1] rest]; [framed | framed |].
      cbn [nth_error go.ret reflect.Interface].
      unfold Request, h2_UnaryInvoke.
      match goal with |- context [snd ?r] => destruct (snd r) end; framed.
    + unfold log, go.bind, go.get, logger.call.
      destruct (config.Logger (opt (self w))); framed.
Qed.

(** The Hessian branch on well-formed arguments. *)
Lemma Invoke_hessian_run
    (w : World) (methodName : string) (in_ : list reflect.Value)
    (ctx : go.Context) (interfaceKey : string) (arg : go.Any) :
  PBSerializerName <> TripleHessianWrapperSerializerName ->
  config.SerializerType (opt (self w)) = TripleHessianWrapperSerializerName ->
  nth_error in_ 0 = Some (reflect.Of (go.AnyContext ctx)) ->
  nth_error in_ 1 = Some (reflect.Of arg) ->
  go.Value ctx InterfaceKey = go.AnyString interfaceKey ->
  let path := ("/" ++ interfaceKey ++ "/" ++ methodName)%string in
  let r := unary_reply (h2Controller (self w)) ctx path arg
             (codec.mkHessianUnmarshalStruct go.AnyNil) in
  Invoke methodName in_ w =
    go.Done [reflect.ValueOf (codec.Val (fst r));
             match snd r with
             | Some e => reflect.ValueOf (go.AnyError e)
             | None => reflect.Zero
             end]
            (record (OutUnaryInvoke ctx path arg) w).
Proof.
  intros Hne Hty Hin0 Hin1 Hkey path r.
  unfold Invoke, go.bind, go.get. rewrite Hty.
  destruct (String.eqb_spec TripleHessianWrapperSerializerName PBSerializerName) as [E|_].
  { now elim Hne. }
  rewrite String.eqb_refl.
  unfold go.index. rewrite Hin0. cbn [go.ret reflect.Interface as_Context].
  rewrite Hkey. cbn [as_string go.ret].
  rewrite Hin1. cbn [go.ret reflect.Interface].
  unfold Request, h2_UnaryInvoke. fold path. fold r.
  destruct (snd r); reflexivity.
Qed.



(** X7.  [Close] does not stop the client from calling out: [Invoke] does
    not ask whether the controller is available, so after [Close] the
    Hessian branch still makes its unary call, now on the destroyed
    controller. *)
Theorem Close_does_not_stop_Invoke
    (w : World) (methodName : string) (in_ : list reflect.Value)
    (ctx : go.Context) (interfaceKey : string) (arg : go.Any) (l : logger.Impl) :
  PBSerializerName <> TripleHessianWrapperSerializerName ->
  config.SerializerType (opt (self w)) = TripleHessianWrapperSerializerName ->
  config.Logger (opt (self w)) = Some l ->
  nth_error in_ 0 = Some (reflect.Of (go.AnyContext ctx)) ->
  nth_error in_ 1 = Some (reflect.Of arg) ->
  go.Value ctx InterfaceKey = go.AnyString interfaceKey ->
  let path := ("/" ++ interfaceKey ++ "/" ++ methodName)%string in
  let r := unary_reply (Destroy (h2Controller (self w))) ctx path arg
             (codec.mkHessianUnmarshalStruct go.AnyNil) in
  exists w',
    go.bind Close (fun _ => Invoke methodName in_) w =
      go.Done [reflect.ValueOf (codec.Val (fst r));
               match snd r with
               | Some e => reflect.ValueOf (go.AnyError e)
               | None => reflect.Zero
               end] w' /\
    outgoing w' = outgoing w ++ [OutDestroy; OutUnaryInvoke ctx path arg] /\
    h2Controller (self w') = Destroy (h2Controller (self w)).
Proof.
  intros Hne Hty Hl Hin0 Hin1 Hkey path r.
  unfold go.bind at 1. rewrite (Close_runs w l Hl).
  eexists. split.
  - apply Invoke_hessian_run; cbn; assumption.
  - cbn. rewrite <- app_assoc. split; reflexivity.
Qed.

(** X8.  On a client whose option holds a nil logger the log call comes
    first and panics: [Close] never reaches [Destroy], and [Invoke] with an
    unknown serializer type panics where it would return its error. *)
Theorem nil_logger_panics_first (w : World) (methodName : string) (in_ : list reflect.Value) :
  config.Logger (opt (self w)) = None ->
  (exists msg, Close w = go.Panic msg w) /\
  (config.SerializerType (opt (self w)) <> PBSerializerName ->
   config.SerializerType (opt (self w)) <> TripleHessianWrapperSerializerName ->
   exists msg, Invoke methodName in_ w = go.Panic msg w).
Proof.
  intros Hl. split.
  - unfold Close, log, go.bind, go.get. rewrite Hl. eexists; reflexivity.
  - intros Hpb Hhs. unfold Invoke, go.bind, go.get.
    destruct (String.eqb_spec (config.SerializerType (opt (self w))) PBSerializerName);
      [contradiction |].
    destruct (String.eqb_spec (config.SerializerType (opt (self w)))
                TripleHessianWrapperSerializerName); [contradiction |].
    unfold log, go.bind, go.get. rewrite Hl. eexists; reflexivity.
Qed.

End InvokeMoreFacts.

(* ===================================================================== *)
(** ** [stream]: sequences of sends and receives                          *)
(* ===================================================================== *)

Section AdapterMoreFacts.
Context `{message.Decls} {R : Type}.
Import stream loops expect.

(** One receive from a queue that is not empty. *)
Lemma RecvMsg_head (w : World R) (m : go.Any) (b : BufferMsg) (rest : list BufferMsg) :
  go.queue (recvChan (stream (self w))) = b :: rest ->
  RecvMsg m w =
    go.Done (recv_result (self w) m b)
      (received (go.mkChan rest (go.closed (recvChan (stream (self w))))) w).
Proof.
  intros Hq. unfold RecvMsg, go.bind, go.get, stream_recv, GetRecv, go.recv.
  rewrite Hq. unfold recv_result, Bytes.
  destruct (Buffer b) as [data|]; [| reflexivity].
  match goal with |- context [snd ?u] => destruct u as [m' [e|]] end; reflexivity.
Qed.

(** One receive from a closed and drained channel. *)
Lemma RecvMsg_closed (w : World R) (m : go.Any) :
  go.queue (recvChan (stream (self w))) = [] ->
  go.closed (recvChan (stream (self w))) = true ->
  RecvMsg m w = go.Done (m, Some (go.ErrorString "user stream closed!")) w.
Proof.
  destruct w as [[o [[qu c] sp] ser ph] lg]. cbn. intros Hq Hc. subst. reflexivity.
Qed.

(** X9.  [RecvMsg] touches nothing but the receive queue, from which it
    takes the oldest message and no more: the log, the outbound path, the
    option, the serializer, the package handler and the closed flag of the
    channel are as before, whatever was read.  It never panics, and it
    parks the caller exactly when the queue is empty and the channel still
    open. *)
Theorem RecvMsg_takes_one_message (w : World R) (m : go.Any) :
  let o := RecvMsg m w in
  logs (final o) = logs w /\
  opt (self (final o)) = opt (self w) /\
  serilizer (self (final o)) = serilizer (self w) /\
  pkgHandler (self (final o)) = pkgHandler (self w) /\
  sendPath (stream (self (final o))) = sendPath (stream (self w)) /\
  go.closed (recvChan (stream (self (final o)))) =
    go.closed (recvChan (stream (self w))) /\
  go.queue (recvChan (stream (self (final o)))) =
    tl (go.queue (recvChan (stream (self w)))) /\
  (forall msg s, o <> go.Panic msg s) /\
  (o = go.Blocked w <->
     go.queue (recvChan (stream (self w))) = [] /\
     go.closed (recvChan (stream (self w))) = false).
Proof.
  destruct (go.queue (recvChan (stream (self w)))) as [|b rest] eqn:Hq.
  - destruct (go.closed (recvChan (stream (self w)))) eqn:Hc.
    + cbv zeta. rewrite (RecvMsg_closed w m Hq Hc). cbn [final]. rewrite Hq, Hc.
      repeat split; try discriminate. intros [_ F]; discriminate.
    + assert (E : RecvMsg m w = go.Blocked w).
      { unfold RecvMsg, go.bind, go.get, stream_recv, GetRecv, go.recv.
        now rewrite Hq, Hc. }
      cbv zeta. rewrite E. cbn [final]. rewrite Hq, Hc.
      repeat split; discriminate.
  - cbv zeta. rewrite (RecvMsg_head w m b rest Hq). cbn [final].
    repeat split; try discriminate. intros [F _]; discriminate.
Qed.

(** X10.  Once the channel is closed and drained, the closed condition is
    final: any number of further calls of [RecvMsg] each fail with "user
    stream closed!", none of them parks, and the adapter stays as it is. *)
Theorem RecvMsg_closed_forever (w : World R) (m : go.Any) (n : nat) :
  go.queue (recvChan (stream (self w))) = [] ->
  go.closed (recvChan (stream (self w))) = true ->
  times n (RecvMsg m) w =
    go.Done (repeat (m, Some (go.ErrorString "user stream closed!")) n) w.
Proof.
  intros Hq Hc.
  pose proof (RecvMsg_closed w m Hq Hc) as E.
  induction n as [|n IH]; [reflexivity |].
  cbn [times repeat]. unfold go.bind at 1. rewrite E.
  unfold go.bind at 1. rewrite IH. reflexivity.
Qed.

(** X11.  Successive calls of [RecvMsg] hand out the queued messages in
    the order they were queued, one per call, and end with the queue
    empty.  A nil buffer met on the way yields "user stream closed!" for
    that call only: the messages queued behind it are still delivered. *)
Theorem RecvMsg_in_queue_order (m : go.Any) : forall (w : World R),
  let q := go.queue (recvChan (stream (self w))) in
  times (length q) (RecvMsg m) w =
    go.Done (map (recv_result (self w) m) q)
      (received (go.mkChan [] (go.closed (recvChan (stream (self w))))) w).
Proof.
  intros w q. subst q.
  remember (go.queue (recvChan (stream (self w)))) as q eqn:Hq.
  revert w Hq. induction q as [|b rest IH]; intros w Hq.
  - cbn. unfold go.ret. f_equal.
    destruct w as [[o [[qu c] sp] ser ph] lg]. cbn in *. now subst qu.
  - cbn [length times map]. unfold go.bind at 1.
    rewrite (RecvMsg_head w m b rest (eq_sym Hq)).
    unfold go.bind at 1.
    rewrite (IH (received (go.mkChan rest (go.closed (recvChan (stream (self w))))) w)
               eq_refl).
    reflexivity.
Qed.

(** One send. *)
Lemma SendMsg_run (w : World R) (m : go.Any) (l : logger.Impl) :
  config.Logger (opt (self w)) = Some l ->
  SendMsg m w =
    go.Done (snd (common.MarshalRequest (serilizer (self w)) m))
      (mkWorld
         (set_stream
            (mkStream (recvChan (stream (self w)))
               (sendPath (stream (self w)) ++ sent (self w) m))
            (self w))
         (logs w ++ complaints l (self w) m)).
Proof.
  intros Hl. unfold SendMsg, sent, complaints, go.bind, go.get.
  destruct (snd (common.MarshalRequest (serilizer (self w)) m)) as [e|].
  - unfold log, go.bind, go.get. rewrite Hl. cbn.
    rewrite app_nil_r. destruct w as [[o [ch sp] ser ph] lg]. reflexivity.
  - cbn. rewrite app_nil_r. reflexivity.
Qed.

(** X12.  A run of [SendMsg] calls (with the logger set) puts one data
    frame per message that marshals on the outbound path, in call order,
    and writes one [Error] line per message that does not; a failure does
    not keep the later messages from being sent, the receive channel is not
    touched, and the results are the marshalling errors, call by call. *)
Theorem SendMsg_in_call_order (l : logger.Impl) (ms : list go.Any) : forall (w : World R),
  config.Logger (opt (self w)) = Some l ->
  exists w',
    each ms SendMsg w =
      go.Done (map (fun m => snd (common.MarshalRequest (serilizer (self w)) m)) ms) w' /\
    sendPath (stream (self w')) =
      sendPath (stream (self w)) ++ flat_map (sent (self w)) ms /\
    logs w' = logs w ++ flat_map (complaints l (self w)) ms /\
    recvChan (stream (self w')) = recvChan (stream (self w)) /\
    opt (self w') = opt (self w) /\
    serilizer (self w') = serilizer (self w) /\
    pkgHandler (self w') = pkgHandler (self w).
Proof.
  induction ms as [|m ms IH]; intros w Hl.
  - exists w. cbn. rewrite !app_nil_r. repeat split.
  - set (w1 := mkWorld
                 (set_stream
                    (mkStream (recvChan (stream (self w)))
                       (sendPath (stream (self w)) ++ sent (self w) m))
                    (self w))
                 (logs w ++ complaints l (self w) m)).
    destruct (IH w1 Hl) as (w' & E & Hs & Hg & Hr & Ho & Hse & Hp).
    exists w'. cbn [each map flat_map]. unfold go.bind at 1.
    rewrite (SendMsg_run w m l Hl). fold w1.
    unfold go.bind at 1. rewrite E.
    split; [reflexivity |].
    rewrite Hs, Hg, Hr, Ho, Hse, Hp. cbn. rewrite <- !app_assoc.
    repeat split.
Qed.

(** X13.  What one adapter sends, another receives: when the message
    marshals, the package handler of the receiver undoes the framing of the
    sender and the serializer of the receiver turns the payload back into
    the message, then [SendMsg] puts a frame on the stream from which
    [RecvMsg], finding it at the head of its queue, returns the message
    with no error. *)
Theorem SendMsg_then_RecvMsg_round_trip
    (sender receiver : World R) (m out : go.Any) (data : go.bytes)
    (rest : list BufferMsg) :
  common.MarshalRequest (serilizer (self sender)) m = (data, None) ->
  fst (common.Frame2PkgData (pkgHandler (self receiver))
         (common.Pkg2FrameData (pkgHandler (self sender)) data)) = data ->
  common.UnmarshalResponse (serilizer (self receiver)) data out = (m, None) ->
  let frame := common.Pkg2FrameData (pkgHandler (self sender)) data in
  go.queue (recvChan (stream (self receiver))) =
    mkBufferMsg (Some frame) message.DataMsgType :: rest ->
  (exists sender',
     SendMsg m sender = go.Done None sender' /\
     sendPath (stream (self sender')) =
       sendPath (stream (self sender)) ++ [(frame, message.DataMsgType)]) /\
  RecvMsg out receiver =
    go.Done (m, None)
      (received (go.mkChan rest (go.closed (recvChan (stream (self receiver))))) receiver).
Proof.
  intros Hm Hf Hu frame Hq. split.
  - unfold SendMsg, go.bind, go.get. rewrite Hm. cbn. eexists. split; reflexivity.
  - rewrite (RecvMsg_head receiver out _ rest Hq).
    unfold recv_result. cbn [Buffer]. fold frame in Hf. subst frame.
    now rewrite Hf, Hu.
Qed.

(** X14.  With a nil logger in the option of the adapter, [SendMsg] of a
    message that does not marshal panics on the log call and the
    marshalling error never reaches the caller; a message that marshals is
    sent as usual, since that path does not log. *)
Theorem SendMsg_nil_logger (w : World R) (m : go.Any) :
  config.Logger (opt (self w)) = None ->
  (snd (common.MarshalRequest (serilizer (self w)) m) <> None ->
     exists msg, SendMsg m w = go.Panic msg w) /\
  (snd (common.MarshalRequest (serilizer (self w)) m) = None ->
     exists w',
       SendMsg m w = go.Done None w' /\
       sendPath (stream (self w')) =
         sendPath (stream (self w)) ++
           [(common.Pkg2FrameData (pkgHandler (self w))
               (fst (common.MarshalRequest (serilizer (self w)) m)),
             message.DataMsgType)]).
Proof.
  intros Hl. unfold SendMsg, go.bind, go.get.
  destruct (snd (common.MarshalRequest (serilizer (self w)) m)) as [e|].
  - split; [| discriminate]. intros _.
    unfold log, go.bind, go.get. rewrite Hl. eexists; reflexivity.
  - split; [intros F; now elim F |]. intros _. eexists. split; reflexivity.
Qed.

End AdapterMoreFacts.

(* ===================================================================== *)
(** ** [triple]: building a client                                        *)
(* ===================================================================== *)

Section ConstructFacts.
Context `{constant.Decls} `{triple.Controller} `{@triple_init.Factory _}.
Import constant triple triple_init.

(** [connect], by cases on what [NewH2Controller] answers. *)
Lemma connect_run (o : config.Option) (l : logger.Impl) (s : list logger.Line) :
  config.Logger o = Some l ->
  connect o o s =
    let s1 := s ++ [(l, logger.Debugf "want to connect to location = "
                          [go.AnyString (config.Location o)])] in
    match NewH2Controller false o with
    | (_, Some err) =>
        go.Done (inr err)
          (s1 ++ [(l, logger.Errorf "dubbo client new http2 controller error = %v"
                        [go.AnyError err])])
    | (None, None) =>
        go.Panic "runtime error: invalid memory address or nil pointer dereference" s1
    | (Some h, None) => go.Done (inl (set_address (config.Location o) h)) s1
    end.
Proof.
  intros Hl. unfold connect, log, logger.call, go.bind, go.modify. rewrite Hl.
  destruct (NewH2Controller false o) as [[h|] [err|]]; reflexivity.
Qed.

(** X15.  When [NewTripleClient] returns, it returns a client or an error
    and never both, nor neither; and it has only added lines to the log. *)
Theorem NewTripleClient_client_or_error
    (impl : go.Any) (o : option config.Option) (s s' : list logger.Line)
    (client : option TripleClient) (err : go.error) :
  NewTripleClient impl o s = go.Done (client, err) s' ->
  ((client = None /\ err <> None) \/ (client <> None /\ err = None)) /\
  exists lines, s' = s ++ lines.
Proof.
  unfold NewTripleClient, go.bind, connect, log, logger.call, go.modify.
  destruct (config.Logger (AddDefaultOption o)) as [l|]; [| discriminate].
  destruct (NewH2Controller false (AddDefaultOption o)) as [[h|] [e|]];
    cbn; intros E; inversion E; subst; clear E;
    (split; [first [left; split; [reflexivity | discriminate]
                   | right; split; [discriminate | reflexivity]]
            | rewrite <- ?app_assoc; eexists; reflexivity]).
Qed.

(** X16.  When [NewH2Controller] reports an error, [NewTripleClient]
    returns no client and that very error, after a [Debugf] and an [Errorf]
    line; the stub is not asked for.  When [NewH2Controller] reports no
    error and yet returns a nil controller, the assignment of the address
    panics. *)
Theorem NewTripleClient_connect_fails
    (impl : go.Any) (o : option config.Option) (s : list logger.Line) (l : logger.Impl) :
  config.Logger (AddDefaultOption o) = Some l ->
  let opt := AddDefaultOption o in
  let s1 := s ++ [(l, logger.Debugf "want to connect to location = "
                        [go.AnyString (config.Location opt)])] in
  (forall h err, NewH2Controller false opt = (h, Some err) ->
     NewTripleClient impl o s =
       go.Done (None, Some err)
         (s1 ++ [(l, logger.Errorf "dubbo client new http2 controller error = %v"
                       [go.AnyError err])])) /\
  (NewH2Controller false opt = (None, None) ->
     exists msg, NewTripleClient impl o s = go.Panic msg s1).
Proof.
  intros Hl opt s1. split.
  - intros h err Hn. unfold NewTripleClient, go.bind. fold opt.
    rewrite (connect_run opt l s Hl), Hn. destruct h; reflexivity.
  - intros Hn. unfold NewTripleClient, go.bind. fold opt.
    rewrite (connect_run opt l s Hl), Hn. eexists; reflexivity.
Qed.

(** X17.  When [NewH2Controller] succeeds, [NewTripleClient] returns a
    client, whatever the serializer type (an unknown one is not
    rejected here).  The client holds the defaulted option and the
    controller with its address set to the location of that option; its
    [once] is unspent and its [serializer] nil; and it has a stub exactly
    when the serializer type is [PBSerializerName], namely what
    [getInvoker] returned. *)
Theorem NewTripleClient_connect_succeeds
    (impl : go.Any) (o : option config.Option) (s : list logger.Line)
    (l : logger.Impl) (h : H2Controller) :
  config.Logger (AddDefaultOption o) = Some l ->
  NewH2Controller false (AddDefaultOption o) = (Some h, None) ->
  let opt := AddDefaultOption o in
  exists t,
    NewTripleClient impl o s =
      go.Done (Some t, None)
        (s ++ [(l, logger.Debugf "want to connect to location = "
                     [go.AnyString (config.Location opt)])]) /\
    triple.opt t = opt /\
    h2Controller t = set_address (config.Location opt) h /\
    once t = sync.zero /\
    serializer t = None /\
    (config.SerializerType opt <> PBSerializerName -> StubInvoker t = None) /\
    (config.SerializerType opt = PBSerializerName ->
       StubInvoker t =
         getInvoker impl
           (mkTripleClient (set_address (config.Location opt) h) None sync.zero opt None)).
Proof.
  intros Hl Hn opt. subst opt. unfold NewTripleClient, go.bind.
  rewrite (connect_run _ l s Hl), Hn. cbn zeta.
  destruct (String.eqb_spec (config.SerializerType (AddDefaultOption o)) PBSerializerName)
    as [E|E].
  - eexists. split; [reflexivity |]. cbn. repeat split.
    intros F. now elim F.
  - eexists. split; [reflexivity |]. cbn. repeat split.
    intros F. now elim E.
Qed.

(** X18.  An unknown serializer type is found out at the first call, not
    at construction: [NewTripleClient] builds the client as for any other
    type, and every [Invoke] on it then returns the zero value and the
    error naming the type, without calling out. *)
Theorem unknown_serializer_surfaces_at_Invoke
    (impl : go.Any) (o : option config.Option) (s : list logger.Line)
    (l : logger.Impl) (h : H2Controller)
    (methodName : string) (in_ : list reflect.Value) :
  config.Logger (AddDefaultOption o) = Some l ->
  NewH2Controller false (AddDefaultOption o) = (Some h, None) ->
  config.SerializerType (AddDefaultOption o) <> PBSerializerName ->
  config.SerializerType (AddDefaultOption o) <> TripleHessianWrapperSerializerName ->
  exists t s' w',
    NewTripleClient impl o s = go.Done (Some t, None) s' /\
    Invoke methodName in_ (mkWorld t s' []) =
      go.Done [reflect.Zero;
               reflect.Of (go.AnyError
                 (go.ErrorString ("Invalid triple client serializerType = " ++
                                  config.SerializerType (AddDefaultOption o))%string))]
        w' /\
    outgoing w' = [] /\
    self w' = t.
Proof.
  intros Hl Hn Hpb Hhs.
  unfold NewTripleClient, go.bind.
  rewrite (connect_run _ l s Hl), Hn. cbn zeta.
  destruct (String.eqb_spec (config.SerializerType (AddDefaultOption o)) PBSerializerName)
    as [E|_]; [contradiction |].
  do 3 eexists. split; [reflexivity |].
  unfold Invoke, go.bind, go.get. cbn [self opt].
  destruct (String.eqb_spec (config.SerializerType (AddDefaultOption o)) PBSerializerName)
    as [E|_]; [contradiction |].
  destruct (String.eqb_spec (config.SerializerType (AddDefaultOption o))
              TripleHessianWrapperSerializerName) as [E|_]; [contradiction |].
  unfold triple.log, go.bind, go.get. cbn [self opt]. rewrite Hl.
  unfold logger.call, go.modify, go.ret, go.Errorf.
  rewrite invalid_serializer_message.
  split; [reflexivity |]. split; reflexivity.
Qed.

End ConstructFacts.

(* ===================================================================== *)
(** ** Concrete runs, continued                                           *)
(* ===================================================================== *)



(** [Close] and then [SayHello] on the Hessian client: the call still goes
    out. *)
Lemma Close_does_not_stop_Invoke_witness :
  exists w',
    go.bind (@triple.Close sample.controller)
      (fun _ => @triple.Invoke sample.decls sample.controller "SayHello" demo.args)
      (sample.client "hessian2") =
      go.Done [reflect.ValueOf sample.user; reflect.Zero] w' /\
    triple.outgoing w' =
      [triple.OutDestroy;
       triple.OutUnaryInvoke sample.ctx "/com.example.IGreeter/SayHello" sample.req] /\
    triple.h2Controller (triple.self w') =
      sample.mkConnection "127.0.0.1:20001" None 1.
Proof.
  refine (@Close_does_not_stop_Invoke sample.decls sample.controller
            (sample.client "hessian2") "SayHello" demo.args
            sample.ctx "com.example.IGreeter" sample.req logger.BuiltIn
            _ _ _ _ _ _).
  - discriminate.
  - reflexivity.
  - reflexivity.
  - reflexivity.
  - reflexivity.
  - reflexivity.
Defined.

(** A client with a nil logger: [Close] panics and the connection is
    still held. *)
Lemma nil_logger_panics_first_witness :
  (exists msg,
     @triple.Close sample.controller demo.bare_client = go.Panic msg demo.bare_client) /\
  (exists msg,
     @triple.Invoke sample.decls sample.controller "SayHello" demo.args demo.bare_client =
       go.Panic msg demo.bare_client).
Proof.
  destruct (@nil_logger_panics_first sample.decls sample.controller
              demo.bare_client "SayHello" demo.args eq_refl) as [Hc Hi].
  split; [exact Hc |].
  apply Hi; discriminate.
Defined.

(** Three receives on a closed and drained stream. *)
Lemma RecvMsg_closed_forever_witness :
  loops.times 3 (@stream.RecvMsg sample.msgs go.error go.AnyNil) (sample.adapter [] true) =
    go.Done (repeat (go.AnyNil, Some (go.ErrorString "user stream closed!")) 3)
      (sample.adapter [] true).
Proof.
  apply (@RecvMsg_closed_forever sample.msgs go.error (sample.adapter [] true) go.AnyNil 3);
    reflexivity.
Defined.

(** Three sends, the second of a message that does not marshal: two
    frames in order and one log line. *)
Lemma SendMsg_in_call_order_witness :
  exists w',
    loops.each [go.AnyBytes [Byte.x41]; sample.req; go.AnyBytes [Byte.x42]]
      (@stream.SendMsg sample.msgs go.error) (sample.adapter [] false) =
      go.Done [None; Some (go.ErrorString "marshal: not a byte string"); None] w' /\
    stream.sendPath (stream.stream (stream.self w')) =
      [([Byte.x00; Byte.x41], 1); ([Byte.x00; Byte.x42], 1)] /\
    stream.logs w' =
      [(logger.BuiltIn,
        logger.Error [go.AnyString "sen msg error with msg = "; sample.req])].
Proof.
  destruct (@SendMsg_in_call_order sample.msgs go.error logger.BuiltIn
              [go.AnyBytes [Byte.x41]; sample.req; go.AnyBytes [Byte.x42]]
              (sample.adapter [] false) eq_refl)
    as (w' & E & Hs & Hg & _).
  exists w'. split; [exact E |]. split; [exact Hs | exact Hg].
Defined.

(** A byte string sent by one adapter and received by another. *)
Lemma SendMsg_then_RecvMsg_round_trip_witness :
  (exists sender',
     @stream.SendMsg sample.msgs go.error (go.AnyBytes [Byte.x41]) (sample.adapter [] false) =
       go.Done None sender' /\
     stream.sendPath (stream.stream (stream.self sender')) = [([Byte.x00; Byte.x41], 1)]) /\
  @stream.RecvMsg sample.msgs go.error go.AnyNil (sample.adapter [demo.frameA] false) =
    go.Done (go.AnyBytes [Byte.x41], None) (sample.adapter [] false).
Proof.
  refine (@SendMsg_then_RecvMsg_round_trip sample.msgs go.error
            (sample.adapter [] false) (sample.adapter [demo.frameA] false)
            (go.AnyBytes [Byte.x41]) go.AnyNil [Byte.x41] [] _ _ _ _);
    reflexivity.
Defined.

(** An adapter with a nil logger: a message that does not marshal makes
    [SendMsg] panic. *)
Lemma SendMsg_nil_logger_witness :
  exists msg,
    @stream.SendMsg sample.msgs go.error sample.req demo.bare_adapter =
      go.Panic msg demo.bare_adapter.
Proof.
  refine (proj1 (@SendMsg_nil_logger sample.msgs go.error demo.bare_adapter sample.req _) _).
  - reflexivity.
  - discriminate.
Defined.

(** Building a client for an unreachable location gives an error and no
    client. *)
Lemma NewTripleClient_client_or_error_witness :
  exists client err s',
    @triple_init.NewTripleClient sample.decls sample.controller demo.factory go.AnyNil
      (Some (config.NewTripleOption [config.WithLocation "unreachable:0"])) [] =
      go.Done (client, err) s' /\
    ((client = None /\ err <> None) \/ (client <> None /\ err = None)).
Proof.
  do 3 eexists. split.
  - reflexivity.
  - refine (proj1 (@NewTripleClient_client_or_error sample.decls sample.controller
              demo.factory go.AnyNil
              (Some (config.NewTripleOption [config.WithLocation "unreachable:0"]))
              [] _ _ _ _)).
    reflexivity.
Defined.

(** The same construction, with the two log lines it leaves. *)
Lemma NewTripleClient_connect_fails_witness :
  @triple_init.NewTripleClient sample.decls sample.controller demo.factory go.AnyNil
    (Some (config.NewTripleOption [config.WithLocation "unreachable:0"])) [] =
    go.Done (None, Some (go.ErrorString "dial tcp: connection refused"))
      [(logger.BuiltIn,
        logger.Debugf "want to connect to location = " [go.AnyString "unreachable:0"]);
       (logger.BuiltIn,
        logger.Errorf "dubbo client new http2 controller error = %v"
          [go.AnyError (go.ErrorString "dial tcp: connection refused")])].
Proof.
  refine (proj1 (@NewTripleClient_connect_fails sample.decls sample.controller
            demo.factory go.AnyNil
            (Some (config.NewTripleOption [config.WithLocation "unreachable:0"]))
            [] logger.BuiltIn _) None
            (go.ErrorString "dial tcp: connection refused") _);
    reflexivity.
Defined.

(** Building a client from the nil option: the defaults, the protobuf
    stub and an unspent [once]. *)
Lemma NewTripleClient_connect_succeeds_witness :
  exists t,
    @triple_init.NewTripleClient sample.decls sample.controller demo.factory go.AnyNil
      None [] =
      go.Done (Some t, None)
        [(logger.BuiltIn,
          logger.Debugf "want to connect to location = "
            [go.AnyString "127.0.0.1:20001"])] /\
    triple.h2Controller t = sample.mkConnection "127.0.0.1:20001" (Some 1) 0 /\
    triple.StubInvoker t = demo.greeter /\
    triple.once t = sync.zero /\
    triple.serializer t = None.
Proof.
  destruct (@NewTripleClient_connect_succeeds sample.decls sample.controller
              demo.factory go.AnyNil None [] logger.BuiltIn
              (sample.mkConnection "" (Some 1) 0) eq_refl eq_refl)
    as (t & E & Ho & Hh & Hc & Hs & _ & Hpb).
  exists t. split; [exact E |]. split; [exact Hh |].
  split; [exact (Hpb eq_refl) |]. split; [exact Hc | exact Hs].
Defined.

(** Building a client for "msgpack" succeeds; its first [Invoke] returns
    the error. *)
Lemma unknown_serializer_surfaces_at_Invoke_witness :
  exists t s' w',
    @triple_init.NewTripleClient sample.decls sample.controller demo.factory go.AnyNil
      (Some (config.NewTripleOption [config.WithSerializerType "msgpack"])) [] =
      go.Done (Some t, None) s' /\
    @triple.Invoke sample.decls sample.controller "SayHello" demo.args
      (triple.mkWorld t s' []) =
      go.Done [reflect.Zero;
               reflect.Of (go.AnyError
                 (go.ErrorString "Invalid triple client serializerType = msgpack"))]
        w' /\
    triple.outgoing w' = [] /\
    triple.self w' = t.
Proof.
  refine (@unknown_serializer_surfaces_at_Invoke sample.decls sample.controller
            demo.factory go.AnyNil
            (Some (config.NewTripleOption [config.WithSerializerType "msgpack"])) []
            logger.BuiltIn (sample.mkConnection "" (Some 1) 0) "SayHello" demo.args
            _ _ _ _).
  - reflexivity.
  - reflexivity.
  - discriminate.
  - discriminate.
Defined.
